(** * Model Traffic Generator: endpoint dispatch and request shaping

    A shallow embedding of [traffic_generator.py].  The Python class
    [TrafficGenerator] talks to three collaborators: the directory service
    ([caiiclient]), the chat/completions client ([openai.OpenAI]) and the raw
    HTTP client ([httpx.Client]).  They are taken here as oracles of an
    environment; the methods of the class become functions in a small
    state-and-error monad whose state is the list of requests sent so far and
    the number of random draws made.

    Log lines are not part of the state; the expressions a log line
    evaluates are kept where they can raise.  The sleeps are those of the
    cycles, which keep the durations slept beside the world. *)

From Stdlib Require Import String Ascii List ZArith Lia Bool Arith.
Import ListNotations.

Open Scope string_scope.
Open Scope list_scope.

(** ** Python strings

    A [str] is a Rocq [string], one character per byte.  The case mappings
    are those of the ASCII letters, on which they agree with Python; every
    other character is left as it is. *)
Module PyStr.

Definition chars (s : string) : list ascii := list_ascii_of_string s.
Definition of_chars (l : list ascii) : string := string_of_list_ascii l.

Definition code (c : ascii) : nat := nat_of_ascii c.

Definition is_upper_letter (c : ascii) : bool :=
  ((65 <=? code c) && (code c <=? 90))%nat.

Definition is_lower_letter (c : ascii) : bool :=
  ((97 <=? code c) && (code c <=? 122))%nat.

Definition lower_char (c : ascii) : ascii :=
  if is_upper_letter c then ascii_of_nat (code c + 32) else c.

Definition upper_char (c : ascii) : ascii :=
  if is_lower_letter c then ascii_of_nat (code c - 32) else c.

(** [s.lower()] and [s.upper()] *)
Definition lower (s : string) : string := of_chars (map lower_char (chars s)).
Definition upper (s : string) : string := of_chars (map upper_char (chars s)).

(** [l] starts with [p] *)
Fixpoint starts_with (p l : list ascii) : bool :=
  match p, l with
  | [], _ => true
  | _ :: _, [] => false
  | a :: p', b :: l' => Ascii.eqb a b && starts_with p' l'
  end.

Fixpoint occurs_in (p l : list ascii) : bool :=
  starts_with p l ||
  match l with
  | [] => false
  | _ :: l' => occurs_in p l'
  end.

(** [needle in hay] for two strings *)
Definition contains (needle hay : string) : bool :=
  occurs_in (chars needle) (chars hay).

(** Everything before the first [c], and what follows it when there is one. *)
Fixpoint break_at (c : ascii) (l : list ascii) : list ascii * option (list ascii) :=
  match l with
  | [] => ([], None)
  | x :: t =>
      if Ascii.eqb x c then ([], Some t)
      else let (p, r) := break_at c t in (x :: p, r)
  end.

(** [s.split(c, n)] on the characters of [s] *)
Fixpoint split_n (c : ascii) (n : nat) (l : list ascii) : list (list ascii) :=
  match n with
  | O => [l]
  | S n' =>
      match break_at c l with
      | (p, None) => [p]
      | (p, Some r) => p :: split_n c n' r
      end
  end.

(** [s.rsplit(c, n)]: the same cut, made from the right. *)
Definition rsplit_chars (c : ascii) (n : nat) (l : list ascii) : list (list ascii) :=
  rev (map (@rev ascii) (split_n c n (rev l))).

Definition rsplit (c : ascii) (n : nat) (s : string) : list string :=
  map of_chars (rsplit_chars c n (chars s)).

(** [s[:n]] *)
Definition slice_to (n : nat) (s : string) : string := of_chars (firstn n (chars s)).

End PyStr.

(** ** Words of the specification about strings

    The specification speaks of strings compared "case-insensitively", of a
    substring "in any letter case" and of "'/'-separated segments".  These are
    defined here without the case mappings and without [rsplit]. *)
Module SpecStr.

Import PyStr.

(** Two characters are the same letter up to case. *)
Definition same_letter (a b : ascii) : bool :=
  Ascii.eqb a b
  || (is_upper_letter a && (code b =? code a + 32)%nat)
  || (is_upper_letter b && (code a =? code b + 32)%nat).

Fixpoint same_letters (s t : list ascii) : bool :=
  match s, t with
  | [], [] => true
  | a :: s', b :: t' => same_letter a b && same_letters s' t'
  | _, _ => false
  end.

(** [s] and [t] are equal when compared case-insensitively. *)
Definition eq_nocase (s t : string) : bool := same_letters (chars s) (chars t).

(** [s] has a substring that is [w] in some letter case. *)
Definition has_word_nocase (w s : string) : Prop :=
  exists pre mid post : list ascii,
    chars s = pre ++ mid ++ post /\ same_letters mid (chars w) = true.

(** The segments of [l] between occurrences of [c]; never empty. *)
Fixpoint segments (c : ascii) (l : list ascii) : list (list ascii) :=
  match l with
  | [] => [[]]
  | x :: t =>
      if Ascii.eqb x c then [] :: segments c t
      else match segments c t with
           | s :: ss => (x :: s) :: ss
           | [] => [[x]]
           end
  end.

Fixpoint join (c : ascii) (ss : list (list ascii)) : list ascii :=
  match ss with
  | [] => []
  | [s] => s
  | s :: ss' => s ++ c :: join c ss'
  end.

(** [s] with its last [k] [c]-separated segments removed. *)
Definition drop_last_segments (k : nat) (c : ascii) (s : string) : string :=
  let ss := segments c (chars s) in
  of_chars (join c (firstn (length ss - k) ss)).

Definition count_char (c : ascii) (s : string) : nat :=
  count_occ ascii_dec (chars s) c.

End SpecStr.

(** ** Python values and exceptions

    The dictionaries, lists and scalars the program builds as request bodies,
    reads from decoded JSON, and may find in the fields of a descriptor: a
    dataclass does not check what its fields hold.  A [PyDict] lists its
    items in insertion order, each key once; a lookup takes the first item
    with the key.  [PyFloat m e] is the decimal [m * 10^e]. *)
#[warnings="-register-all"]
Inductive pyval : Type :=
| PyNone
| PyBool (b : bool)
| PyInt (z : Z)
| PyFloat (m e : Z)
| PyStr (s : string)
| PyList (items : list pyval)
| PyDict (items : list (string * pyval)).

(** Instances of Python's [Exception], the class every [except] clause of
    the program names. *)
Inductive exn : Type :=
| TypeError
| KeyError
| IndexError
| AttributeError
| JSONDecodeError
| TransportError (msg : string)   (* raised by httpx: timeout, refused connection, ... *)
| APIError (status : Z)           (* raised by the openai client on an error status *)
| ServiceError (msg : string).    (* raised by the directory service client *)

Inductive result (A : Type) : Type :=
| Ok (a : A)
| Raise (e : exn).
Arguments Ok {A} a.
Arguments Raise {A} e.

Module Py.

Fixpoint dict_get (k : string) (items : list (string * pyval)) : option pyval :=
  match items with
  | [] => None
  | (k', v) :: rest => if String.eqb k' k then Some v else dict_get k rest
  end.

Definition is_str (k : string) (v : pyval) : bool :=
  match v with
  | PyStr s => String.eqb s k
  | _ => false
  end.

(** [k in v] for a string [k] *)
Definition contains (k : string) (v : pyval) : result bool :=
  match v with
  | PyDict items => Ok (match dict_get k items with Some _ => true | None => false end)
  | PyList items => Ok (existsb (is_str k) items)
  | PyStr s => Ok (PyStr.contains k s)
  | _ => Raise TypeError
  end.

(** [v[k]] for a string [k] *)
Definition getitem (v : pyval) (k : string) : result pyval :=
  match v with
  | PyDict items =>
      match dict_get k items with
      | Some x => Ok x
      | None => Raise KeyError
      end
  | _ => Raise TypeError
  end.

(** [v[0]]; the keys of a decoded JSON object are strings, so [0] is never
    one of them. *)
Definition getitem0 (v : pyval) : result pyval :=
  match v with
  | PyList (x :: _) => Ok x
  | PyList [] => Raise IndexError
  | PyStr (String c _) => Ok (PyStr (String c EmptyString))
  | PyStr EmptyString => Raise IndexError
  | PyDict _ => Raise KeyError
  | _ => Raise TypeError
  end.

(** [len(v)] *)
Definition len (v : pyval) : result nat :=
  match v with
  | PyList items => Ok (List.length items)
  | PyDict items => Ok (List.length items)
  | PyStr s => Ok (String.length s)
  | _ => Raise TypeError
  end.

(** [l[0]] on a list of the model *)
Definition index0 {A : Type} (l : list A) : result A :=
  match l with
  | x :: _ => Ok x
  | [] => Raise IndexError
  end.

(** The methods of [str], looked up on any value: only a string has them. *)
Definition upper (v : pyval) : result string :=
  match v with
  | PyStr s => Ok (PyStr.upper s)
  | _ => Raise AttributeError
  end.

Definition lower (v : pyval) : result string :=
  match v with
  | PyStr s => Ok (PyStr.lower s)
  | _ => Raise AttributeError
  end.

Definition rsplit (v : pyval) (c : ascii) (n : nat) : result (list string) :=
  match v with
  | PyStr s => Ok (PyStr.rsplit c n s)
  | _ => Raise AttributeError
  end.

(** The truth value of [v] in an [if] *)
Definition truthy (v : pyval) : bool :=
  match v with
  | PyNone => false
  | PyBool b => b
  | PyInt z => negb (z =? 0)%Z
  | PyFloat m _ => negb (m =? 0)%Z
  | PyStr s => negb (String.eqb s "")
  | PyList items => match items with [] => false | _ => true end
  | PyDict items => match items with [] => false | _ => true end
  end.

End Py.

(** ** Records of the program and of its collaborators *)

(** The dataclass [EndpointInfo].  Its annotations ([str], [bool]) are not
    enforced, so a field holds any value. *)
Record EndpointInfo : Type := {
  name : pyval;
  namespace : pyval;
  url : pyval;
  state : pyval;
  api_standard : pyval;
  task : pyval;
  model_name : pyval;
  has_chat_template : pyval
}.

(** One entry of [response.endpoints] as the directory service returns it,
    every field of its declared type. *)
Module Serving.
Record Endpoint : Type := {
  name : string;
  namespace : string;
  url : string;
  state : string;
  api_standard : string;
  task : string;
  model_name : string;
  has_chat_template : bool
}.
End Serving.

(** What [client.chat.completions.create] returns: [choices] may be [None]. *)
Module ChatCompletion.
Record Message : Type := { content : option string }.
Record Choice : Type := { message : Message }.
Record t : Type := { choices : option (list Choice) }.
End ChatCompletion.

(** What [client.completions.create] returns. *)
Module Completion.
Record Choice : Type := { text : option string }.
Record t : Type := { choices : option (list Choice) }.
End Completion.

(** An [httpx.Response]: [json] is what [response.json()] gives, an exception
    when the body does not decode. *)
Module Response.
Record t : Type := {
  status_code : Z;
  json : result pyval;
  text : string
}.
End Response.

(** Everything the program sends to a collaborator. *)
Inductive request : Type :=
| ListEndpoints (namespace : string)
| ChatCompletionsCreate (base_url api_key : string) (kwargs : list (string * pyval))
| CompletionsCreate (base_url api_key : string) (kwargs : list (string * pyval))
| HttpPost (url : pyval) (json : pyval) (headers : list (string * string)).

(** The collaborators.  Each answer may depend on everything sent before.
    The directory service answers with a list of records or raises; an
    answer that is no such list makes the loop of [discover_endpoints] raise
    inside the same [try], and counts here as a raising call. *)
Record Env : Type := {
  random_index : nat -> nat;
  serving_list_endpoints : list request -> string -> result (list Serving.Endpoint);
  chat_create : list request -> request -> result ChatCompletion.t;
  completions_create : list request -> request -> result Completion.t;
  http_post : list request -> request -> result Response.t
}.

(** ** The monad of the program: requests sent and random draws made so far *)
Record World : Type := {
  sent : list request;
  draws : nat
}.

Definition start : World := {| sent := []; draws := 0 |}.

Definition M (A : Type) : Type := World -> result A * World.

Definition ret {A : Type} (a : A) : M A := fun w => (Ok a, w).

Definition raise {A : Type} (e : exn) : M A := fun w => (Raise e, w).

Definition bind {A B : Type} (m : M A) (k : A -> M B) : M B :=
  fun w =>
    match m w with
    | (Ok a, w') => k a w'
    | (Raise e, w') => (Raise e, w')
    end.

Definition lift {A : Type} (r : result A) : M A := fun w => (r, w).

(** [try: body  except Exception as e: handler] *)
Definition try_except {A : Type} (body : M A) (handler : exn -> M A) : M A :=
  fun w =>
    match body w with
    | (Ok a, w') => (Ok a, w')
    | (Raise e, w') => handler e w'
    end.

Declare Scope py_scope.
Delimit Scope py_scope with py.
Notation "x <- m ;; k" := (bind m (fun x => k))
  (at level 61, m at next level, right associativity) : py_scope.
Notation "m ;;; k" := (bind m (fun _ => k))
  (at level 61, right associativity) : py_scope.
Open Scope py_scope.

(** A request goes out and the collaborator answers or raises; either way
    the request has been sent. *)
Definition send {A : Type} (oracle : list request -> request -> result A)
    (r : request) : M A :=
  fun w => (oracle (sent w) r, {| sent := sent w ++ [r]; draws := draws w |}).

(** ** The class [TrafficGenerator] *)

Record TrafficGenerator : Type := {
  cdp_token : string;
  domain : string;
  verify_ssl : bool;
  interval : Z;
  max_tokens : Z
}.

Definition TEXT_GENERATION_PROMPTS : list string := [
  "What is machine learning?";
  "Explain the concept of neural networks in simple terms.";
  "Write a haiku about artificial intelligence.";
  "What are the benefits of cloud computing?";
  "Describe the difference between supervised and unsupervised learning."
].

Definition CHAT_PROMPTS : list pyval := [
  PyList [PyDict [("role", PyStr "user"); ("content", PyStr "Hello! How are you?")]];
  PyList [PyDict [("role", PyStr "user"); ("content", PyStr "What can you help me with today?")]];
  PyList [PyDict [("role", PyStr "user"); ("content", PyStr "Tell me a fun fact about computers.")]];
  PyList [PyDict [("role", PyStr "user"); ("content", PyStr "What is your purpose?")]];
  PyList [PyDict [("role", PyStr "user"); ("content", PyStr "Can you help me write some code?")]]
].

Definition EMBEDDING_TEXTS : list string := [
  "The quick brown fox jumps over the lazy dog";
  "Machine learning is transforming industries";
  "Cloud computing provides scalable infrastructure";
  "Artificial intelligence is advancing rapidly";
  "Data science combines statistics and programming"
].

Definition RERANK_QUERIES : list pyval := [
  PyDict [
    ("query", PyStr "What is machine learning?");
    ("documents", PyList [
      PyStr "Machine learning is a subset of artificial intelligence.";
      PyStr "The weather today is sunny and warm.";
      PyStr "Neural networks are inspired by biological neurons.";
      PyStr "Pizza is a popular Italian food."
    ])
  ];
  PyDict [
    ("query", PyStr "benefits of cloud computing");
    ("documents", PyList [
      PyStr "Cloud computing offers scalability and flexibility.";
      PyStr "Cats are popular pets around the world.";
      PyStr "Cost savings are a major advantage of cloud services.";
      PyStr "Mountains are formed by tectonic activity."
    ])
  ]
].

Definition VLM_PROMPTS : list string := [
  "Describe this image in detail.";
  "What do you see in this picture?";
  "What is the main subject of this image?"
].

Definition PLACEHOLDER_IMAGE : string :=
  "iVBORw0KGgoAAAANSUhEUgAAAAEAAAABCAYAAAAfFcSJAAAADUlEQVR42mP8z8DwHwAFBQIAX8jx0gAAAABJRU5ErkJggg==".

(** [x in l] for a list of strings *)
Definition str_in (x : string) (l : list string) : bool := existsb (String.eqb x) l.

(** The truth value of a string that may be [None] *)
Definition truthy_str (s : option string) : bool :=
  match s with
  | Some (String _ _) => true
  | _ => false
  end.

Definition request_headers (token : string) : list (string * string) := [
  ("Authorization", String.append "Bearer " token);
  ("Content-Type", "application/json")
].

Definition image_part : pyval :=
  PyDict [
    ("type", PyStr "image_url");
    ("image_url",
     PyDict [("url", PyStr (String.append "data:image/png;base64," PLACEHOLDER_IMAGE))])
  ].

Section Methods.

Variable env : Env.
Variable self : TrafficGenerator.

(** [random.choice(seq)] *)
Definition random_choice {A : Type} (seq : list A) : M A :=
  fun w =>
    match seq with
    | [] => (Raise IndexError, w)
    | d :: _ =>
        (Ok (nth (random_index env (draws w) mod List.length seq) seq d),
         {| sent := sent w; draws := S (draws w) |})
    end.

(** [for ep in response.endpoints: ...] with [endpoints] as accumulator *)
Definition discover_step (endpoints : list EndpointInfo) (ep : Serving.Endpoint)
    : list EndpointInfo :=
  if str_in (PyStr.lower (Serving.state ep)) ["running"; "loaded"] then
    endpoints ++ [{|
      name := PyStr (Serving.name ep);
      namespace := PyStr (Serving.namespace ep);
      url := PyStr (Serving.url ep);
      state := PyStr (Serving.state ep);
      api_standard := PyStr (Serving.api_standard ep);
      task := PyStr (Serving.task ep);
      model_name := PyStr (Serving.model_name ep);
      has_chat_template := PyBool (Serving.has_chat_template ep)
    |}]
  else endpoints.

Definition discover_endpoints (namespace : string) : M (list EndpointInfo) :=
  try_except
    (response <- (fun w => (serving_list_endpoints env (sent w) namespace,
                            {| sent := sent w ++ [ListEndpoints namespace];
                               draws := draws w |})) ;;
     ret (fold_left discover_step response []))
    (fun _ => ret []).

(** The argument of the debug log line after a chat completion:
    [response.choices[0].message.content[:100]], evaluated only when
    [response.choices and response.choices[0].message.content] is true. *)
Definition chat_preview (response : ChatCompletion.t) : option string :=
  match ChatCompletion.choices response with
  | Some (c :: _) =>
      let content := ChatCompletion.content (ChatCompletion.message c) in
      if truthy_str content
      then option_map (PyStr.slice_to 100) content
      else None
  | _ => None
  end.

Definition completion_preview (response : Completion.t) : option string :=
  match Completion.choices response with
  | Some (c :: _) =>
      if truthy_str (Completion.text c)
      then option_map (PyStr.slice_to 100) (Completion.text c)
      else None
  | _ => None
  end.

Definition _generate_text_traffic (endpoint : EndpointInfo) : M bool :=
  try_except
    (parts <- lift (Py.rsplit (url endpoint) "/" 2) ;;
     base_url <- lift (Py.index0 parts) ;;
     if Py.truthy (has_chat_template endpoint) then
       messages <- random_choice CHAT_PROMPTS ;;
       response <- send (chat_create env)
         (ChatCompletionsCreate base_url (cdp_token self) [
            ("model", model_name endpoint);
            ("messages", messages);
            ("max_tokens", PyInt (max_tokens self));
            ("temperature", PyFloat 7 (-1))
          ]) ;;
       let _ := chat_preview response in
       ret true
     else
       prompt <- random_choice TEXT_GENERATION_PROMPTS ;;
       response <- send (completions_create env)
         (CompletionsCreate base_url (cdp_token self) [
            ("model", model_name endpoint);
            ("prompt", PyStr prompt);
            ("max_tokens", PyInt (max_tokens self));
            ("temperature", PyFloat 7 (-1))
          ]) ;;
       let _ := completion_preview response in
       ret true)
    (fun _ => ret false).

(** [len(result['data'][0]['embedding'])], the dimension the success line
    of the log shows *)
Definition embedding_dim (result : pyval) : M nat :=
  data <- lift (Py.getitem result "data") ;;
  first <- lift (Py.getitem0 data) ;;
  embedding <- lift (Py.getitem first "embedding") ;;
  lift (Py.len embedding).

Definition _generate_embedding_traffic (endpoint : EndpointInfo) : M bool :=
  try_except
    (text <- random_choice EMBEDDING_TEXTS ;;
     let payload := PyDict [
       ("model", model_name endpoint);
       ("input", PyStr text);
       ("input_type", PyStr "query")
     ] in
     let headers := request_headers (cdp_token self) in
     response <- send (http_post env) (HttpPost (url endpoint) payload headers) ;;
     if (Response.status_code response =? 200)%Z then
       result <- lift (Response.json response) ;;
       has_data <- lift (Py.contains "data" result) ;;
       (if has_data then
          data <- lift (Py.getitem result "data") ;;
          n <- lift (Py.len data) ;;
          if (0 <? n)%nat then embedding_dim result ;;; ret tt else ret tt
        else ret tt) ;;;
       ret true
     else
       ret false)
    (fun _ => ret false).

Definition _generate_rerank_traffic (endpoint : EndpointInfo) : M bool :=
  try_except
    (sample <- random_choice RERANK_QUERIES ;;
     query <- lift (Py.getitem sample "query") ;;
     documents <- lift (Py.getitem sample "documents") ;;
     docs <- lift (match documents with
                   | PyList ds => Ok ds
                   | _ => Raise TypeError
                   end) ;;
     let payload := PyDict [
       ("model", model_name endpoint);
       ("query", PyDict [("text", query)]);
       ("passages", PyList (map (fun doc => PyDict [("text", doc)]) docs))
     ] in
     let headers := request_headers (cdp_token self) in
     response <- send (http_post env) (HttpPost (url endpoint) payload headers) ;;
     if (Response.status_code response =? 200)%Z then
       ret true
     else
       let alt_payload := PyDict [
         ("model", model_name endpoint);
         ("query", query);
         ("documents", documents)
       ] in
       response <- send (http_post env) (HttpPost (url endpoint) alt_payload headers) ;;
       if (Response.status_code response =? 200)%Z then
         ret true
       else
         ret false)
    (fun _ => ret false).

Definition _generate_vlm_traffic (endpoint : EndpointInfo) : M bool :=
  try_except
    (parts <- lift (Py.rsplit (url endpoint) "/" 2) ;;
     base_url <- lift (Py.index0 parts) ;;
     lowered <- lift (Py.lower (model_name endpoint)) ;;
     let is_parse_model := PyStr.contains "parse" lowered in
     messages <-
       (if is_parse_model then
          ret (PyList [PyDict [("role", PyStr "user"); ("content", PyList [image_part])]])
        else
          prompt <- random_choice VLM_PROMPTS ;;
          ret (PyList [PyDict [
                 ("role", PyStr "user");
                 ("content", PyList [
                    image_part;
                    PyDict [("type", PyStr "text"); ("text", PyStr prompt)]
                  ])
               ]])) ;;
     response <- send (chat_create env)
       (ChatCompletionsCreate base_url (cdp_token self) [
          ("model", model_name endpoint);
          ("messages", messages);
          ("max_tokens", PyInt (max_tokens self))
        ]) ;;
     let _ := chat_preview response in
     ret true)
    (fun _ => ret false).

Definition generate_traffic_for_endpoint (endpoint : EndpointInfo) : M bool :=
  try_except
    (task <- lift (Py.upper (task endpoint)) ;;
     if str_in task ["TEXT_GENERATION"; "TEXT_TO_TEXT_GENERATION"] then
       _generate_text_traffic endpoint
     else if String.eqb task "EMBED" then
       _generate_embedding_traffic endpoint
     else if String.eqb task "RANK" then
       _generate_rerank_traffic endpoint
     else if String.eqb task "IMAGE_TEXT_TO_TEXT" then
       _generate_vlm_traffic endpoint
     else if String.eqb task "OBJECT_DETECTION" then
       _generate_vlm_traffic endpoint
     else if String.eqb task "SPEECH_TO_TEXT" then
       ret true
     else if String.eqb task "TEXT_TO_SPEECH" then
       ret true
     else if String.eqb task "INFERENCE" then
       ret true
     else
       ret false)
    (fun _ => ret false).

End Methods.

(** ** Words of the specification about the dispatcher *)
Module Spec.

Import SpecStr.

(** The Endpoint Descriptor of the specification: the eight fields, each of
    its declared type. *)
Definition Descriptor : Type := Serving.Endpoint.


(** The [EndpointInfo] that holds a descriptor. *)
Definition info_of (d : Descriptor) : EndpointInfo := {|
  name := PyStr (Serving.name d);
  namespace := PyStr (Serving.namespace d);
  url := PyStr (Serving.url d);
  state := PyStr (Serving.state d);
  api_standard := PyStr (Serving.api_standard d);
  task := PyStr (Serving.task d);
  model_name := PyStr (Serving.model_name d);
  has_chat_template := PyBool (Serving.has_chat_template d)
|}.

(** The task of [endpoint] is the string [t] up to case. *)
Definition task_is (endpoint : EndpointInfo) (t : string) : bool :=
  match task endpoint with
  | PyStr s => eq_nocase s t
  | _ => false
  end.

Definition SKIPPED_TASKS : list string :=
  ["SPEECH_TO_TEXT"; "TEXT_TO_SPEECH"; "INFERENCE"].


End Spec.

(** ** What a run of a method is compared with *)

(** The element [random.choice(seq)] returns in world [w]. *)
Definition chosen {A : Type} (env : Env) (w : World) (seq : list A) (d : A) : A :=
  nth (random_index env (draws w) mod List.length seq) seq d.

(** The world after one random draw and the sending of [rs]. *)
Definition after (w : World) (rs : list request) : World :=
  {| sent := sent w ++ rs; draws := S (draws w) |}.

Definition is_ok {A : Type} (r : result A) : bool :=
  match r with
  | Ok _ => true
  | Raise _ => false
  end.

(** The collaborator raised on request [r], sent after [hist]. *)
Definition raised (env : Env) (hist : list request) (r : request) : bool :=
  match r with
  | ListEndpoints ns => negb (is_ok (serving_list_endpoints env hist ns))
  | ChatCompletionsCreate _ _ _ => negb (is_ok (chat_create env hist r))
  | CompletionsCreate _ _ _ => negb (is_ok (completions_create env hist r))
  | HttpPost _ _ _ => negb (is_ok (http_post env hist r))
  end.

(** The status of the answer to a POST, when there is an answer. *)
Definition status_of (r : result Response.t) : option Z :=
  match r with
  | Ok response => Some (Response.status_code response)
  | Raise _ => None
  end.

Definition returned_200 (r : result Response.t) : bool :=
  match status_of r with
  | Some s => (s =? 200)%Z
  | None => false
  end.


(** [v[k]] and the items of [v], for values known to be a dictionary with
    key [k] and a list. *)
Definition field (k : string) (v : pyval) : pyval :=
  match Py.getitem v k with
  | Ok x => x
  | Raise _ => PyNone
  end.

Definition items_of (v : pyval) : list pyval :=
  match v with
  | PyList l => l
  | _ => []
  end.

Definition is_string (v : pyval) : bool :=
  match v with
  | PyStr _ => true
  | _ => false
  end.

(** The requests the four paths send from world [w]. *)
Section Requests.

Variable env : Env.
Variable self : TrafficGenerator.
Variable endpoint : EndpointInfo.
Variable w : World.

(** The value of [endpoint.url.rsplit('/', 2)[0]] when the URL is a string. *)
Definition base_url : string :=
  match url endpoint with
  | PyStr u => hd "" (PyStr.rsplit "/" 2 u)
  | _ => ""
  end.

Definition chat_request : request :=
  ChatCompletionsCreate base_url (cdp_token self) [
    ("model", model_name endpoint);
    ("messages", chosen env w CHAT_PROMPTS PyNone);
    ("max_tokens", PyInt (max_tokens self));
    ("temperature", PyFloat 7 (-1))
  ].

Definition completion_request : request :=
  CompletionsCreate base_url (cdp_token self) [
    ("model", model_name endpoint);
    ("prompt", PyStr (chosen env w TEXT_GENERATION_PROMPTS ""));
    ("max_tokens", PyInt (max_tokens self));
    ("temperature", PyFloat 7 (-1))
  ].

Definition text_request : request :=
  if Py.truthy (has_chat_template endpoint) then chat_request else completion_request.

Definition embedding_request : request :=
  HttpPost (url endpoint)
    (PyDict [
       ("model", model_name endpoint);
       ("input", PyStr (chosen env w EMBEDDING_TEXTS ""));
       ("input_type", PyStr "query")
     ])
    (request_headers (cdp_token self)).

Definition rerank_sample : pyval := chosen env w RERANK_QUERIES PyNone.

Definition rerank_request : request :=
  HttpPost (url endpoint)
    (PyDict [
       ("model", model_name endpoint);
       ("query", PyDict [("text", field "query" rerank_sample)]);
       ("passages",
        PyList (map (fun doc => PyDict [("text", doc)])
                  (items_of (field "documents" rerank_sample))))
     ])
    (request_headers (cdp_token self)).

Definition rerank_alt_request : request :=
  HttpPost (url endpoint)
    (PyDict [
       ("model", model_name endpoint);
       ("query", field "query" rerank_sample);
       ("documents", field "documents" rerank_sample)
     ])
    (request_headers (cdp_token self)).

Definition is_parse_model : bool :=
  match model_name endpoint with
  | PyStr m => PyStr.contains "parse" (PyStr.lower m)
  | _ => false
  end.

Definition vlm_content : pyval :=
  if is_parse_model then PyList [image_part]
  else PyList [
         image_part;
         PyDict [("type", PyStr "text"); ("text", PyStr (chosen env w VLM_PROMPTS ""))]
       ].

Definition vlm_request : request :=
  ChatCompletionsCreate base_url (cdp_token self) [
    ("model", model_name endpoint);
    ("messages", PyList [PyDict [("role", PyStr "user"); ("content", vlm_content)]]);
    ("max_tokens", PyInt (max_tokens self))
  ].

(** The world after the vision-language path: the parse branch draws no
    random number. *)
Definition after_vlm : World :=
  {| sent := sent w ++ [vlm_request];
     draws := if is_parse_model then draws w else S (draws w) |}.

End Requests.

(** What the embedding path makes of a decoded body after a 200: the
    reading of the body for the log line raises or not. *)
Definition embedding_log_ok (result : pyval) : bool :=
  match Py.contains "data" result with
  | Raise _ => false
  | Ok false => true
  | Ok true =>
      match Py.getitem result "data" with
      | Raise _ => false
      | Ok data =>
          match Py.len data with
          | Raise _ => false
          | Ok O => true
          | Ok (S _) =>
              match Py.getitem0 data with
              | Raise _ => false
              | Ok first =>
                  match Py.getitem first "embedding" with
                  | Raise _ => false
                  | Ok embedding => is_ok (Py.len embedding)
                  end
              end
          end
      end
  end.

Definition embedding_success (r : result Response.t) : bool :=
  match r with
  | Raise _ => false
  | Ok response =>
      if (Response.status_code response =? 200)%Z then
        match Response.json response with
        | Ok result => embedding_log_ok result
        | Raise _ => false
        end
      else false
  end.

(** ** Words of the specification about requests *)
Module Shape.

(** The base URL handed to the chat/completions client. *)
Definition client_base_url (r : request) : option string :=
  match r with
  | ChatCompletionsCreate b _ _ => Some b
  | CompletionsCreate b _ _ => Some b
  | _ => None
  end.

(** The URL a raw POST goes to. *)
Definition post_url (r : request) : option pyval :=
  match r with
  | HttpPost u _ _ => Some u
  | _ => None
  end.

(** The fields of a request built for the chat/completions client. *)
Definition kwargs_of (r : request) : list (string * pyval) :=
  match r with
  | ChatCompletionsCreate _ _ kw => kw
  | CompletionsCreate _ _ kw => kw
  | _ => []
  end.

Definition has_role_user (v : pyval) : Prop :=
  exists m, v = PyDict m /\ Py.dict_get "role" m = Some (PyStr "user").

(** A [messages] value with exactly one entry, of role user. *)
Definition single_user_message (v : pyval) : Prop :=
  exists msg, v = PyList [msg] /\ has_role_user msg.

(** The content of the single user message of a [messages] value. *)
Definition content_of_single_message (v : pyval) : option pyval :=
  match v with
  | PyList [PyDict m] =>
      match Py.dict_get "role" m with
      | Some (PyStr "user") => Py.dict_get "content" m
      | _ => None
      end
  | _ => None
  end.

Definition is_image_part (v : pyval) : Prop :=
  exists items url,
    v = PyDict items /\
    Py.dict_get "type" items = Some (PyStr "image_url") /\
    Py.dict_get "image_url" items = Some (PyDict [("url", PyStr url)]).

Definition is_text_part (prompts : list string) (v : pyval) : Prop :=
  exists items p,
    v = PyDict items /\
    Py.dict_get "type" items = Some (PyStr "text") /\
    Py.dict_get "text" items = Some (PyStr p) /\
    In p prompts.

(** [{model, query: {text: q}, passages: [{text: doc}, ...]}] *)
Definition rerank_primary (model : pyval) (q : string) (docs : list pyval) : pyval :=
  PyDict [
    ("model", model);
    ("query", PyDict [("text", PyStr q)]);
    ("passages", PyList (map (fun doc => PyDict [("text", doc)]) docs))
  ].

(** [{model, query: q, documents: [doc, ...]}] *)
Definition rerank_alternate (model : pyval) (q : string) (docs : list pyval) : pyval :=
  PyDict [
    ("model", model);
    ("query", PyStr q);
    ("documents", PyList docs)
  ].


(** The outcome the specification gives an embedding response: status 200
    and a [data] array, when present, not empty. *)
Definition embed_outcome_by_data (r : result Response.t) : bool :=
  match r with
  | Raise _ => false
  | Ok response =>
      (Response.status_code response =? 200)%Z &&
      match Response.json response with
      | Ok (PyDict items) =>
          match Py.dict_get "data" items with
          | Some (PyList []) => false
          | _ => true
          end
      | _ => true
      end
  end.

End Shape.

(** ** Sample collaborators and descriptors *)
Module Sample.

Definition generator : TrafficGenerator := {|
  cdp_token := "secret";
  domain := "serving.example.com";
  verify_ssl := true;
  interval := 60;
  max_tokens := 50
|}.

Definition descriptor (task url model_name : string) (has_chat_template : bool)
    : Spec.Descriptor := {|
  Serving.name := "ep";
  Serving.namespace := "serving-default";
  Serving.url := url;
  Serving.state := "Running";
  Serving.api_standard := "openai";
  Serving.task := task;
  Serving.model_name := model_name;
  Serving.has_chat_template := has_chat_template
|}.

Definition info (task url model_name : string) (has_chat_template : bool)
    : EndpointInfo :=
  Spec.info_of (descriptor task url model_name has_chat_template).

(** A descriptor whose fields were never filled in. *)
Definition blank_info : EndpointInfo := {|
  name := PyNone;
  namespace := PyNone;
  url := PyNone;
  state := PyNone;
  api_standard := PyNone;
  task := PyNone;
  model_name := PyNone;
  has_chat_template := PyNone
|}.

Definition response (status : Z) (body : pyval) : result Response.t :=
  Ok {| Response.status_code := status; Response.json := Ok body; Response.text := "" |}.

(** Collaborators that answer the [n]-th request of a run with the [n]-th
    entry of the list given for its kind, and raise when the list is
    exhausted. *)
Definition collaborators
    (records : result (list Serving.Endpoint))
    (chats : list (result ChatCompletion.t))
    (completions : list (result Completion.t))
    (posts : list (result Response.t)) : Env := {|
  random_index := fun k => k;
  serving_list_endpoints := fun _ _ => records;
  chat_create := fun hist _ => nth (List.length hist) chats (Raise (APIError 500));
  completions_create := fun hist _ =>
    nth (List.length hist) completions (Raise (APIError 500));
  http_post := fun hist _ =>
    nth (List.length hist) posts (Raise (TransportError "timed out"))
|}.

Definition silent : Env := collaborators (Ok []) [] [] [].


Definition record (name state task : string) : Serving.Endpoint := {|
  Serving.name := name;
  Serving.namespace := "serving-default";
  Serving.url := "https://serving.example.com/ns/ep/v1/embeddings";
  Serving.state := state;
  Serving.api_standard := "openai";
  Serving.task := task;
  Serving.model_name := "embed-1";
  Serving.has_chat_template := false
|}.

End Sample.

(** ** Construction of the generator

    [str.strip], [str.startswith], [str.rstrip] and slicing, as
    [TrafficGenerator.__init__] uses them to normalize the domain.  The
    white space is that of ASCII: tab to carriage return, the four
    separators 28 to 31, and the space. *)
Module PyTrim.

Import PyStr.

Definition is_space (c : ascii) : bool :=
  (((9 <=? code c) && (code c <=? 13))
   || ((28 <=? code c) && (code c <=? 31))
   || (code c =? 32))%nat.

Fixpoint lstrip_while (p : ascii -> bool) (l : list ascii) : list ascii :=
  match l with
  | [] => []
  | x :: t => if p x then lstrip_while p t else l
  end.

Definition rstrip_while (p : ascii -> bool) (l : list ascii) : list ascii :=
  rev (lstrip_while p (rev l)).

(** [s.strip()] *)
Definition strip (s : string) : string :=
  of_chars (rstrip_while is_space (lstrip_while is_space (chars s))).

(** [s.rstrip(c)] for a single character [c] *)
Definition rstrip_char (c : ascii) (s : string) : string :=
  of_chars (rstrip_while (Ascii.eqb c) (chars s)).

(** [s.startswith(p)] *)
Definition startswith (p s : string) : bool := starts_with (chars p) (chars s).

(** [s[n:]] *)
Definition slice_from (n : nat) (s : string) : string := of_chars (skipn n (chars s)).

End PyTrim.

(** The normalization of [domain] at the head of [__init__]. *)
Definition normalize_domain (domain : string) : string :=
  let domain := PyTrim.strip domain in
  let domain :=
    if PyTrim.startswith "https://" domain then PyTrim.slice_from 8 domain
    else if PyTrim.startswith "http://" domain then PyTrim.slice_from 7 domain
    else domain in
  PyTrim.rstrip_char "/" domain.

(** [TrafficGenerator.__init__]: the attributes it sets.  The two clients it
    builds are the collaborators of [Env]. *)
Definition __init__ (cdp_token domain : string) (verify_ssl : bool)
    (interval max_tokens : Z) : TrafficGenerator := {|
  cdp_token := cdp_token;
  domain := normalize_domain domain;
  verify_ssl := verify_ssl;
  interval := interval;
  max_tokens := max_tokens
|}.

(** [config.host], the address of the directory service. *)
Definition config_host (self : TrafficGenerator) : string :=
  String.append "https://" (domain self).

(** ** The entry point *)

(** The result of [parser.parse_args()]: an option is [None] when neither
    the flag nor its environment variable is there. *)
Module Args.
Record t : Type := {
  token : option string;
  domain : option string;
  namespace : string;
  interval : Z;
  max_tokens : Z;
  no_verify_ssl : bool;
  once : bool;
  debug : bool
}.
End Args.

(** What [main] does with the arguments: [parser.error], which ends the
    process, or a generator built and handed to [run_once] or
    [run_continuous] with the namespace. *)
Inductive launch : Type :=
| ParserError (message : string)
| Started (generator : TrafficGenerator) (once : bool) (namespace : string).

Definition main (args : Args.t) : launch :=
  if negb (truthy_str (Args.token args)) then
    ParserError "--token is required (or set CDP_TOKEN environment variable)"
  else if negb (truthy_str (Args.domain args)) then
    ParserError "--domain is required (or set CML_DOMAIN environment variable)"
  else
    Started
      (__init__
         (match Args.token args with Some s => s | None => "" end)
         (match Args.domain args with Some s => s | None => "" end)
         (negb (Args.no_verify_ssl args))
         (Args.interval args)
         (Args.max_tokens args))
      (Args.once args)
      (Args.namespace args).

(** ** Cycles

    A cycle discovers, dispatches to each descriptor and sleeps.  Its state
    adds to the world the durations slept, in order.  [time.sleep] raises
    [ValueError] on a negative duration; like every exception of the model
    it is an instance of [Exception]. *)
Inductive fault : Type :=
| Exn (e : exn)
| ValueError.

Inductive outcome (A : Type) : Type :=
| Returned (a : A)
| Raised (e : fault).
Arguments Returned {A} a.
Arguments Raised {A} e.

Record Timeline : Type := {
  world : World;
  slept : list Z
}.

Definition T (A : Type) : Type := Timeline -> outcome A * Timeline.

Module Cycle.

Definition ret {A : Type} (a : A) : T A := fun t => (Returned a, t).

Definition bind {A B : Type} (m : T A) (k : A -> T B) : T B :=
  fun t =>
    match m t with
    | (Returned a, t') => k a t'
    | (Raised e, t') => (Raised e, t')
    end.

(** A method of the generator run inside a cycle. *)
Definition call {A : Type} (m : M A) : T A :=
  fun t =>
    match m (world t) with
    | (Ok a, w') => (Returned a, {| world := w'; slept := slept t |})
    | (Raise e, w') => (Raised (Exn e), {| world := w'; slept := slept t |})
    end.

(** [time.sleep(seconds)] *)
Definition time_sleep (seconds : Z) : T unit :=
  fun t =>
    if (seconds <? 0)%Z then (Raised ValueError, t)
    else (Returned tt, {| world := world t; slept := slept t ++ [seconds] |}).

(** [try: body  except Exception as e: handler] *)
Definition try_except {A : Type} (body : T A) (handler : fault -> T A) : T A :=
  fun t =>
    match body t with
    | (Returned a, t') => (Returned a, t')
    | (Raised e, t') => handler e t'
    end.

End Cycle.

Declare Scope cycle_scope.
Delimit Scope cycle_scope with cycle.
Notation "x <- m ;; k" := (Cycle.bind m (fun x => k))
  (at level 61, m at next level, right associativity) : cycle_scope.
Notation "m ;;; k" := (Cycle.bind m (fun _ => k))
  (at level 61, right associativity) : cycle_scope.

Section Cycles.

Variable env : Env.
Variable self : TrafficGenerator.

Local Open Scope cycle_scope.

(** [for endpoint in endpoints: ...] of [run_once] and [run_continuous],
    with [success_count] as accumulator. *)
Fixpoint dispatch_each (endpoints : list EndpointInfo) (success_count : nat) : T nat :=
  match endpoints with
  | [] => Cycle.ret success_count
  | endpoint :: rest =>
      ok <- Cycle.call (generate_traffic_for_endpoint env self endpoint) ;;
      let success_count := if ok then S success_count else success_count in
      Cycle.time_sleep 2 ;;;
      dispatch_each rest success_count
  end.

(** [run_once].  The method returns nothing; the value here is the pair its
    last log line shows, successes and descriptors, and [None] when it
    returns early for want of descriptors. *)
Definition run_once (namespace : string) : T (option (nat * nat)) :=
  endpoints <- Cycle.call (discover_endpoints env namespace) ;;
  match endpoints with
  | [] => Cycle.ret None
  | _ :: _ =>
      success_count <- dispatch_each endpoints 0 ;;
      Cycle.ret (Some (success_count, List.length endpoints))
  end.



End Cycles.

(** ** What the runs are compared with *)


Definition is_discovery (r : request) : bool :=
  match r with
  | ListEndpoints _ => true
  | _ => false
  end.

(** The number of queries to the directory service among [rs]. *)
Definition discoveries (rs : list request) : nat :=
  List.length (filter is_discovery rs).

(** Request [r] carries the token: as API key of the client or as bearer of
    the [Authorization] header. *)
Definition carries_token (token : string) (r : request) : Prop :=
  match r with
  | ListEndpoints _ => False
  | ChatCompletionsCreate _ key _ => key = token
  | CompletionsCreate _ key _ => key = token
  | HttpPost _ _ headers =>
      In ("Authorization", String.append "Bearer " token) headers /\
      In ("Content-Type", "application/json") headers
  end.

(** Request [r] names [model] as its model. *)
Definition names_model (model : pyval) (r : request) : Prop :=
  match r with
  | ListEndpoints _ => False
  | ChatCompletionsCreate _ _ kw => Py.dict_get "model" kw = Some model
  | CompletionsCreate _ _ kw => Py.dict_get "model" kw = Some model
  | HttpPost _ body _ => Py.getitem body "model" = Ok model
  end.

(** The characters of [l] are all [c]. *)
Definition all_char (c : ascii) (l : list ascii) : Prop := Forall (eq c) l.

(** A request to the chat/completions client asks for [cap] tokens at
    most. *)
Definition caps_tokens (cap : Z) (r : request) : Prop :=
  match r with
  | ChatCompletionsCreate _ _ kw => Py.dict_get "max_tokens" kw = Some (PyInt cap)
  | CompletionsCreate _ _ kw => Py.dict_get "max_tokens" kw = Some (PyInt cap)
  | _ => True
  end.

(** Request [r] is no query to the directory service, carries the token
    of [self], names the model of [endpoint] and keeps to the token cap of
    [self]. *)
Definition well_addressed (self : TrafficGenerator) (endpoint : EndpointInfo)
    (r : request) : Prop :=
  is_discovery r = false /\
  carries_token (cdp_token self) r /\
  names_model (model_name endpoint) r /\
  caps_tokens (max_tokens self) r.

(** The body of a raw POST. *)
Definition post_body (r : request) : option pyval :=
  match r with
  | HttpPost _ body _ => Some body
  | _ => None
  end.

(** * Properties *)

(** ** Case mappings against comparison up to case *)
Section CaseFacts.

Import PyStr SpecStr.

Lemma code_inj (a b : ascii) : code a = code b -> a = b.
Proof.
  unfold code. intro H.
  rewrite <- (ascii_nat_embedding a), <- (ascii_nat_embedding b).
  now rewrite H.
Qed.

Lemma code_bound (a : ascii) : code a < 256.
Proof. apply nat_ascii_bounded. Qed.

Lemma code_lower_char (a : ascii) :
  code (lower_char a) = if is_upper_letter a then code a + 32 else code a.
Proof.
  unfold lower_char. destruct (is_upper_letter a) eqn:E; [|reflexivity].
  unfold code at 1. apply nat_ascii_embedding.
  unfold is_upper_letter in E. apply andb_prop in E as [_ E].
  apply Nat.leb_le in E. lia.
Qed.

Lemma code_upper_char (a : ascii) :
  code (upper_char a) = if is_lower_letter a then code a - 32 else code a.
Proof.
  unfold upper_char. destruct (is_lower_letter a) eqn:E; [|reflexivity].
  unfold code at 1. apply nat_ascii_embedding.
  pose proof (code_bound a). lia.
Qed.

Lemma is_upper_letter_spec (a : ascii) :
  is_upper_letter a = true <-> 65 <= code a <= 90.
Proof.
  unfold is_upper_letter. rewrite andb_true_iff, !Nat.leb_le. tauto.
Qed.

Lemma is_lower_letter_spec (a : ascii) :
  is_lower_letter a = true <-> 97 <= code a <= 122.
Proof.
  unfold is_lower_letter. rewrite andb_true_iff, !Nat.leb_le. tauto.
Qed.

Lemma same_letter_spec (a b : ascii) :
  same_letter a b = true <->
  code a = code b \/
  (65 <= code a <= 90 /\ code b = code a + 32) \/
  (65 <= code b <= 90 /\ code a = code b + 32).
Proof.
  unfold same_letter.
  rewrite !orb_true_iff, !andb_true_iff, !Nat.eqb_eq, !is_upper_letter_spec.
  rewrite Ascii.eqb_eq.
  split.
  - intros [[H | H] | H]; [left; now subst | tauto | tauto].
  - intros [H | [H | H]]; [left; left; now apply code_inj | tauto | tauto].
Qed.

Ltac case_letters :=
  repeat match goal with
  | |- context [is_upper_letter ?a] =>
      let E := fresh "E" in
      destruct (is_upper_letter a) eqn:E;
      [apply is_upper_letter_spec in E
      |apply not_true_iff_false in E; rewrite is_upper_letter_spec in E]
  | |- context [is_lower_letter ?a] =>
      let E := fresh "E" in
      destruct (is_lower_letter a) eqn:E;
      [apply is_lower_letter_spec in E
      |apply not_true_iff_false in E; rewrite is_lower_letter_spec in E]
  end.

Lemma same_letter_lower (a b : ascii) :
  same_letter a b = true <-> lower_char a = lower_char b.
Proof.
  rewrite same_letter_spec. split.
  - intro H. apply code_inj. rewrite !code_lower_char. case_letters; lia.
  - intro H. apply (f_equal code) in H. rewrite !code_lower_char in H.
    revert H. case_letters; lia.
Qed.

Lemma same_letter_upper (a b : ascii) :
  same_letter a b = true <-> upper_char a = upper_char b.
Proof.
  rewrite same_letter_spec. split.
  - intro H. apply code_inj. rewrite !code_upper_char. case_letters; lia.
  - intro H. apply (f_equal code) in H. rewrite !code_upper_char in H.
    revert H. case_letters; lia.
Qed.

Lemma same_letters_map (f : ascii -> ascii)
    (Hf : forall a b, same_letter a b = true <-> f a = f b) (s t : list ascii) :
  same_letters s t = true <-> map f s = map f t.
Proof.
  revert t. induction s as [|a s IH]; intros [|b t]; simpl; try easy.
  rewrite andb_true_iff, Hf, IH. split.
  - intros [-> ->]. reflexivity.
  - intro H. injection H. auto.
Qed.

Lemma chars_of_chars (l : list ascii) : chars (of_chars l) = l.
Proof. apply list_ascii_of_string_of_list_ascii. Qed.

Lemma of_chars_chars (s : string) : of_chars (chars s) = s.
Proof. apply string_of_list_ascii_of_string. Qed.

Lemma of_chars_inj (l l' : list ascii) : of_chars l = of_chars l' -> l = l'.
Proof.
  intro H. rewrite <- (chars_of_chars l), <- (chars_of_chars l'). now rewrite H.
Qed.


Lemma eq_nocase_upper (s t : string) :
  eq_nocase s t = true <-> upper s = upper t.
Proof.
  unfold eq_nocase, upper. rewrite (same_letters_map _ same_letter_upper).
  split; [now intros -> | apply of_chars_inj].
Qed.


Lemma upper_eqb_nocase (s t : string) :
  upper t = t -> String.eqb (upper s) t = eq_nocase s t.
Proof.
  intro Ht. apply eq_true_iff_eq. rewrite String.eqb_eq, eq_nocase_upper, Ht. tauto.
Qed.

End CaseFacts.

(** ** [rsplit] against the segments of a string *)
Section SplitFacts.

Import PyStr SpecStr.

Variable c : ascii.

Lemma break_at_absent (l : list ascii) :
  ~ In c l -> break_at c l = (l, None).
Proof.
  induction l as [|x t IH]; simpl; intro H; [reflexivity|].
  destruct (Ascii.eqb x c) eqn:E.
  - apply Ascii.eqb_eq in E. tauto.
  - rewrite IH by tauto. reflexivity.
Qed.

Lemma break_at_first (p r : list ascii) :
  ~ In c p -> break_at c (p ++ c :: r) = (p, Some r).
Proof.
  induction p as [|x t IH]; simpl; intro H.
  - now rewrite Ascii.eqb_refl.
  - destruct (Ascii.eqb x c) eqn:E.
    + apply Ascii.eqb_eq in E. tauto.
    + rewrite IH by tauto. reflexivity.
Qed.

Lemma split_n_nonempty (n : nat) (l : list ascii) : split_n c n l <> [].
Proof.
  destruct n; simpl; [discriminate|].
  destruct (break_at c l) as [p [r|]]; discriminate.
Qed.

Lemma rsplit_chars_nonempty (n : nat) (l : list ascii) : rsplit_chars c n l <> [].
Proof.
  unfold rsplit_chars. intro H.
  apply (f_equal (@List.length _)) in H.
  rewrite length_rev, length_map in H.
  pose proof (split_n_nonempty n (rev l)).
  destruct (split_n c n (rev l)); [congruence | discriminate].
Qed.

Lemma rsplit_chars_zero (l : list ascii) : rsplit_chars c 0 l = [l].
Proof. unfold rsplit_chars. simpl. now rewrite rev_involutive. Qed.

Lemma rsplit_chars_absent (n : nat) (l : list ascii) :
  ~ In c l -> rsplit_chars c n l = [l].
Proof.
  intro H. unfold rsplit_chars. destruct n; simpl.
  - now rewrite rev_involutive.
  - rewrite break_at_absent by (now rewrite <- in_rev).
    simpl. now rewrite rev_involutive.
Qed.

Lemma rsplit_chars_last (n : nat) (a d : list ascii) :
  ~ In c d -> rsplit_chars c (S n) (a ++ c :: d) = rsplit_chars c n a ++ [d].
Proof.
  intro H. unfold rsplit_chars.
  rewrite rev_app_distr. simpl rev. rewrite <- app_assoc. simpl.
  rewrite break_at_first by (now rewrite <- in_rev).
  simpl. now rewrite rev_involutive.
Qed.

Lemma last_occurrence (l : list ascii) :
  In c l -> exists a d, l = a ++ c :: d /\ ~ In c d.
Proof.
  induction l as [|x t IH]; [easy|].
  intro H. destruct (in_dec ascii_dec c t) as [Ht | Ht].
  - destruct (IH Ht) as (a & d & -> & Hd). now exists (x :: a), d.
  - destruct H as [-> | H]; [|tauto]. now exists [], t.
Qed.

Lemma segments_nonempty (l : list ascii) : segments c l <> [].
Proof.
  induction l as [|x t IH]; simpl; [discriminate|].
  destruct (Ascii.eqb x c); [discriminate|].
  destruct (segments c t); discriminate.
Qed.

Lemma segments_absent (l : list ascii) : ~ In c l -> segments c l = [l].
Proof.
  induction l as [|x t IH]; simpl; intro H; [reflexivity|].
  destruct (Ascii.eqb x c) eqn:E.
  - apply Ascii.eqb_eq in E. tauto.
  - rewrite IH by tauto. reflexivity.
Qed.

Lemma segments_app (a b : list ascii) :
  segments c (a ++ c :: b) = segments c a ++ segments c b.
Proof.
  induction a as [|x t IH]; simpl.
  - now rewrite Ascii.eqb_refl.
  - destruct (Ascii.eqb x c); [now rewrite IH|].
    rewrite IH. pose proof (segments_nonempty t).
    destruct (segments c t); [congruence | reflexivity].
Qed.

Lemma join_segments (l : list ascii) : join c (segments c l) = l.
Proof.
  induction l as [|x t IH]; [reflexivity|].
  simpl segments. pose proof (segments_nonempty t) as Hne.
  destruct (Ascii.eqb x c) eqn:E.
  - apply Ascii.eqb_eq in E. subst x.
    destruct (segments c t) as [|s ss] eqn:Es; [congruence|].
    change (join c ([] :: s :: ss)) with (c :: join c (s :: ss)). now rewrite IH.
  - destruct (segments c t) as [|s ss] eqn:Es; [congruence|].
    destruct ss as [|s' ss]; simpl in *; now rewrite <- IH.
Qed.

Lemma firstn_all_but (A : Type) (l tl : list A) :
  firstn (List.length (l ++ tl) - List.length tl) (l ++ tl) = l.
Proof.
  rewrite length_app, Nat.add_sub, firstn_app, Nat.sub_diag, firstn_all.
  simpl. apply app_nil_r.
Qed.

(** With no separator in the string, [rsplit] returns the string alone. *)
Lemma rsplit_head_0 (s : string) :
  count_char c s = 0 -> rsplit c 2 s = [s].
Proof.
  unfold count_char, rsplit. intro H.
  apply count_occ_not_In in H. rewrite rsplit_chars_absent by assumption.
  simpl. now rewrite of_chars_chars.
Qed.

(** With one separator, the head of [rsplit] is what precedes it. *)
Lemma rsplit_head_1 (s : string) :
  count_char c s = 1 ->
  exists last, rsplit c 2 s = [drop_last_segments 1 c s; last].
Proof.
  unfold count_char, rsplit, drop_last_segments. intro H.
  destruct (last_occurrence (chars s)) as (a & d & E & Hd).
  { apply (count_occ_In ascii_dec). lia. }
  rewrite E in *. rewrite count_occ_app in H. simpl in H.
  destruct (ascii_dec c c) as [_|]; [|congruence].
  assert (Ha : ~ In c a) by (apply (count_occ_not_In ascii_dec); lia).
  rewrite rsplit_chars_last, rsplit_chars_absent by assumption.
  rewrite segments_app, (segments_absent d Hd), (segments_absent a Ha).
  exists (of_chars d). reflexivity.
Qed.

(** With two separators or more, it is the string less its last two
    segments. *)
Lemma rsplit_head_2 (s : string) :
  2 <= count_char c s ->
  exists mid last, rsplit c 2 s = [drop_last_segments 2 c s; mid; last].
Proof.
  unfold count_char, rsplit, drop_last_segments. intro H.
  destruct (last_occurrence (chars s)) as (a' & d & E & Hd).
  { apply (count_occ_In ascii_dec). lia. }
  rewrite E in *. rewrite count_occ_app in H. simpl in H.
  destruct (ascii_dec c c) as [_|]; [|congruence].
  apply (count_occ_not_In ascii_dec) in Hd as Hd0.
  destruct (last_occurrence a') as (a & b & E' & Hb).
  { apply (count_occ_In ascii_dec). lia. }
  subst a'. rewrite rsplit_chars_last, rsplit_chars_last, rsplit_chars_zero by assumption.
  rewrite !segments_app, (segments_absent d Hd), (segments_absent b Hb).
  rewrite <- (app_assoc (segments c a)).
  change (List.length (segments c a ++ [b] ++ [d]) - 2)
    with (List.length (segments c a ++ [b] ++ [d]) - List.length ([b] ++ [d])).
  rewrite firstn_all_but, join_segments.
  exists (of_chars b), (of_chars d). reflexivity.
Qed.

End SplitFacts.


(** ** Running the monad *)

Lemma try_except_total {A : Type} (body : M A) (a : A) (w : World) :
  exists x w', try_except body (fun _ => ret a) w = (Ok x, w').
Proof.
  unfold try_except, ret. destruct (body w) as [[x|e] w']; eauto.
Qed.

Lemma try_except_ok {A : Type} (body : M A) (h : exn -> M A) (w w' : World) (a : A) :
  body w = (Ok a, w') -> try_except body h w = (Ok a, w').
Proof. unfold try_except. now intros ->. Qed.

Lemma try_except_inner {A : Type} (body : M A) (a a' : A) (w : World) :
  try_except (try_except body (fun _ => ret a)) (fun _ => ret a') w =
  try_except body (fun _ => ret a) w.
Proof.
  destruct (try_except_total body a w) as (x & w' & E).
  rewrite E. now apply try_except_ok.
Qed.

(** ** Discovery *)




(** Scenario of the specification: of three records, the two that are
    running or loaded are kept, in their order. *)
Example discover_keeps_active :
  fst (discover_endpoints
         (Sample.collaborators
            (Ok [Sample.record "a" "Running" "EMBED";
                 Sample.record "b" "Failed" "RANK";
                 Sample.record "c" "LOADED" "INFERENCE"]) [] [] [])
         "serving-default" start)
  = Ok [Spec.info_of (Sample.record "a" "Running" "EMBED");
        Spec.info_of (Sample.record "c" "LOADED" "INFERENCE")].
Proof. reflexivity. Qed.

(** ** The four request paths, run *)
Section Paths.

Variable env : Env.
Variable self : TrafficGenerator.
Variable endpoint : EndpointInfo.
Variable w : World.

Lemma random_choice_run {A : Type} (seq : list A) (d : A) :
  seq <> [] ->
  random_choice env seq w = (Ok (chosen env w seq d), after w []).
Proof.
  unfold random_choice, chosen, after. destruct seq as [|x tl]; [easy|].
  intros _. rewrite app_nil_r. do 2 f_equal.
  apply nth_indep. apply Nat.mod_upper_bound. discriminate.
Qed.

Lemma chosen_in {A : Type} (seq : list A) (d : A) :
  seq <> [] -> In (chosen env w seq d) seq.
Proof.
  intro H. unfold chosen. apply nth_In. apply Nat.mod_upper_bound.
  destruct seq; [congruence | discriminate].
Qed.

(** [endpoint.url.rsplit('/', 2)[0]] raises on a URL that is no string and
    gives [base_url] otherwise. *)
Lemma base_url_run {A : Type} (k : string -> M A) :
  (parts <- lift (Py.rsplit (url endpoint) "/" 2) ;;
   base <- lift (Py.index0 parts) ;;
   k base) w =
  if is_string (url endpoint) then k (base_url endpoint) w
  else (Raise AttributeError, w).
Proof.
  unfold bind, lift, base_url.
  destruct (url endpoint) as [| | | |u| |]; try reflexivity.
  simpl. unfold PyStr.rsplit.
  pose proof (rsplit_chars_nonempty "/" 2 (PyStr.chars u)) as H.
  destruct (PyStr.rsplit_chars "/" 2 (PyStr.chars u)); [congruence|].
  reflexivity.
Qed.

Lemma text_traffic_run :
  let r := text_request env self endpoint w in
  _generate_text_traffic env self endpoint w =
  if is_string (url endpoint)
  then (Ok (negb (raised env (sent w) r)), after w [r])
  else (Ok false, w).
Proof.
  intro r. subst r. unfold _generate_text_traffic, try_except, text_request.
  rewrite base_url_run.
  destruct (is_string (url endpoint)); [|reflexivity].
  destruct (Py.truthy (has_chat_template endpoint)).
  - unfold bind at 1.
    rewrite (random_choice_run CHAT_PROMPTS PyNone) by discriminate.
    unfold bind, send, ret, after. simpl sent. rewrite app_nil_r. simpl draws.
    fold (chat_request env self endpoint w). simpl raised.
    destruct (chat_create env (sent w) (chat_request env self endpoint w)); reflexivity.
  - unfold bind at 1.
    rewrite (random_choice_run TEXT_GENERATION_PROMPTS "") by discriminate.
    unfold bind, send, ret, after. simpl sent. rewrite app_nil_r. simpl draws.
    fold (completion_request env self endpoint w). simpl raised.
    destruct (completions_create env (sent w) (completion_request env self endpoint w));
      reflexivity.
Qed.

Ltac close_log := eexists; split; [reflexivity | simpl; auto].

Lemma embedding_log_run (body : pyval) (w0 : World) :
  exists r : result bool,
    (has_data <- lift (Py.contains "data" body) ;;
     (if has_data then
        data <- lift (Py.getitem body "data") ;;
        n <- lift (Py.len data) ;;
        if (0 <? n)%nat then embedding_dim body ;;; ret tt else ret tt
      else ret tt) ;;;
     ret true) w0 = (r, w0) /\
    match r with
    | Ok b => b = true /\ embedding_log_ok body = true
    | Raise _ => embedding_log_ok body = false
    end.
Proof.
  unfold embedding_log_ok, embedding_dim, bind, lift, ret.
  destruct (Py.contains "data" body) as [[|]|e]; [|close_log ..].
  destruct (Py.getitem body "data") as [data|e]; [|close_log].
  destruct (Py.len data) as [[|n]|e]; [close_log| |close_log].
  change (0 <? S n)%nat with true. cbv iota.
  destruct (Py.getitem0 data) as [first|e]; [|close_log].
  destruct (Py.getitem first "embedding") as [embedding|e]; [|close_log].
  destruct (Py.len embedding) as [k|e]; close_log.
Qed.

Lemma embedding_traffic_run :
  _generate_embedding_traffic env self endpoint w =
  (Ok (embedding_success (http_post env (sent w) (embedding_request env self endpoint w))),
   after w [embedding_request env self endpoint w]).
Proof.
  unfold _generate_embedding_traffic, try_except.
  unfold bind at 1.
  rewrite (random_choice_run EMBEDDING_TEXTS "") by discriminate.
  unfold bind at 1. unfold send at 1, after. simpl sent. rewrite app_nil_r. simpl draws.
  fold (embedding_request env self endpoint w).
  unfold embedding_success.
  destruct (http_post env (sent w) (embedding_request env self endpoint w))
    as [response|e]; [|reflexivity].
  destruct (Response.status_code response =? 200)%Z; [|reflexivity].
  unfold bind at 1. unfold lift at 1.
  destruct (Response.json response) as [result|e]; [|reflexivity].
  match goal with
  | |- context [bind (lift (Py.contains "data" result)) ?k ?w0] =>
      destruct (embedding_log_run result w0) as (r & -> & Hr)
  end.
  destruct r as [b|e]; [destruct Hr as [-> ->] | rewrite Hr]; reflexivity.
Qed.

Lemma rerank_sample_shape :
  exists (q : string) (docs : list pyval),
    rerank_sample env w =
    PyDict [("query", PyStr q); ("documents", PyList docs)].
Proof.
  pose proof (chosen_in RERANK_QUERIES PyNone ltac:(discriminate)) as H.
  fold (rerank_sample env w) in H.
  destruct H as [<- | [<- | []]]; eauto.
Qed.

Lemma rerank_traffic_run :
  let p := rerank_request env self endpoint w in
  let a := rerank_alt_request env self endpoint w in
  _generate_rerank_traffic env self endpoint w =
  match http_post env (sent w) p with
  | Raise _ => (Ok false, after w [p])
  | Ok response =>
      if (Response.status_code response =? 200)%Z then (Ok true, after w [p])
      else (Ok (returned_200 (http_post env (sent w ++ [p]) a)), after w [p; a])
  end.
Proof.
  intros p a. subst p a.
  unfold _generate_rerank_traffic, try_except, rerank_request, rerank_alt_request.
  unfold bind at 1.
  rewrite (random_choice_run RERANK_QUERIES PyNone) by discriminate.
  fold (rerank_sample env w).
  destruct rerank_sample_shape as (q & docs & ->).
  unfold bind, lift, send, ret, after, returned_200, status_of, field. simpl.
  rewrite app_nil_r.
  match goal with |- context [http_post env (sent w) ?r] =>
    destruct (http_post env (sent w) r) as [response|e]; [|reflexivity] end.
  destruct (Response.status_code response =? 200)%Z; [reflexivity|].
  cbn [sent draws]. rewrite <- !app_assoc. simpl app.
  match goal with |- context [http_post env (sent w ++ ?h) ?r] =>
    destruct (http_post env (sent w ++ h) r) as [response'|e]; [|reflexivity] end.
  destruct (Response.status_code response' =? 200)%Z; reflexivity.
Qed.

Lemma vlm_traffic_run :
  let r := vlm_request env self endpoint w in
  _generate_vlm_traffic env self endpoint w =
  if is_string (url endpoint) && is_string (model_name endpoint)
  then (Ok (is_ok (chat_create env (sent w) r)), after_vlm env self endpoint w)
  else (Ok false, w).
Proof.
  intro r. subst r.
  unfold _generate_vlm_traffic, try_except, after_vlm, vlm_request, vlm_content.
  rewrite base_url_run.
  destruct (is_string (url endpoint)); [|reflexivity].
  unfold is_parse_model.
  destruct (model_name endpoint) as [| | | |m| |]; try reflexivity.
  unfold bind at 1. unfold lift at 1. simpl Py.lower. cbv iota.
  simpl is_string. simpl andb. cbv iota.
  destruct (PyStr.contains "parse" (PyStr.lower m)).
  - unfold bind, ret, send. simpl.
    match goal with |- context [chat_create env (sent w) ?r] =>
      destruct (chat_create env (sent w) r); reflexivity end.
  - unfold bind at 1. unfold bind at 1.
    rewrite (random_choice_run VLM_PROMPTS "") by discriminate.
    unfold bind, ret, send, after. simpl. rewrite app_nil_r.
    match goal with |- context [chat_create env (sent w) ?r] =>
      destruct (chat_create env (sent w) r); reflexivity end.
Qed.

End Paths.

(** ** The dispatcher, by task *)
Section Dispatch.

Import SpecStr Spec.

Variable env : Env.
Variable self : TrafficGenerator.
Variable endpoint : EndpointInfo.
Variable w : World.

Lemma dispatch_by_task :
  generate_traffic_for_endpoint env self endpoint w =
  if task_is endpoint "TEXT_GENERATION" || task_is endpoint "TEXT_TO_TEXT_GENERATION"
  then _generate_text_traffic env self endpoint w
  else if task_is endpoint "EMBED" then _generate_embedding_traffic env self endpoint w
  else if task_is endpoint "RANK" then _generate_rerank_traffic env self endpoint w
  else if task_is endpoint "IMAGE_TEXT_TO_TEXT" || task_is endpoint "OBJECT_DETECTION"
  then _generate_vlm_traffic env self endpoint w
  else if existsb (task_is endpoint) SKIPPED_TASKS then (Ok true, w)
  else (Ok false, w).
Proof.
  unfold generate_traffic_for_endpoint, str_in, task_is. simpl existsb.
  destruct (task endpoint) as [| | | |t| |]; try reflexivity.
  unfold try_except at 1. unfold bind at 1. unfold lift at 1. simpl Py.upper. cbv iota.
  rewrite !orb_false_r, !upper_eqb_nocase by reflexivity.
  destruct (eq_nocase t "TEXT_GENERATION");
    [apply try_except_inner|].
  destruct (eq_nocase t "TEXT_TO_TEXT_GENERATION");
    [apply try_except_inner|].
  destruct (eq_nocase t "EMBED"); [apply try_except_inner|].
  destruct (eq_nocase t "RANK"); [apply try_except_inner|].
  destruct (eq_nocase t "IMAGE_TEXT_TO_TEXT");
    [apply try_except_inner|].
  destruct (eq_nocase t "OBJECT_DETECTION");
    [apply try_except_inner|].
  destruct (eq_nocase t "SPEECH_TO_TEXT"); [reflexivity|].
  destruct (eq_nocase t "TEXT_TO_SPEECH"); [reflexivity|].
  destruct (eq_nocase t "INFERENCE"); reflexivity.
Qed.

(** A task equal up to case to one name is equal to no other name. *)
Lemma task_is_unique (t t' : string) :
  PyStr.upper t = t -> PyStr.upper t' = t' ->
  task_is endpoint t = true -> t <> t' -> task_is endpoint t' = false.
Proof.
  unfold task_is. intros Ht Ht' H Hne.
  destruct (task endpoint) as [| | | |s| |]; try reflexivity.
  apply not_true_iff_false. intro H'.
  apply eq_nocase_upper in H, H'. congruence.
Qed.

Lemma text_dispatch :
  task_is endpoint "TEXT_GENERATION"
  || task_is endpoint "TEXT_TO_TEXT_GENERATION" = true ->
  generate_traffic_for_endpoint env self endpoint w =
  _generate_text_traffic env self endpoint w.
Proof. intro H. now rewrite dispatch_by_task, H. Qed.

Lemma embedding_dispatch :
  task_is endpoint "EMBED" = true ->
  generate_traffic_for_endpoint env self endpoint w =
  _generate_embedding_traffic env self endpoint w.
Proof.
  intro H. rewrite dispatch_by_task, H.
  rewrite !(task_is_unique "EMBED"); auto; discriminate.
Qed.

Lemma rerank_dispatch :
  task_is endpoint "RANK" = true ->
  generate_traffic_for_endpoint env self endpoint w =
  _generate_rerank_traffic env self endpoint w.
Proof.
  intro H. rewrite dispatch_by_task, H.
  rewrite !(task_is_unique "RANK"); auto; discriminate.
Qed.

Lemma vlm_dispatch :
  task_is endpoint "IMAGE_TEXT_TO_TEXT"
  || task_is endpoint "OBJECT_DETECTION" = true ->
  generate_traffic_for_endpoint env self endpoint w =
  _generate_vlm_traffic env self endpoint w.
Proof.
  intro H. rewrite dispatch_by_task, H.
  apply orb_true_iff in H as [H | H].
  - rewrite !(task_is_unique "IMAGE_TEXT_TO_TEXT"); auto; discriminate.
  - rewrite !(task_is_unique "OBJECT_DETECTION"); auto; discriminate.
Qed.

End Dispatch.

(** ** Tasks that send nothing *)



(** ** Exceptions stop at the dispatcher *)





(** A descriptor with nothing in its fields is dispatched to false, no
    request sent: [endpoint.task.upper()] raises inside the [try]. *)
Example dispatch_blank_info :
  generate_traffic_for_endpoint Sample.silent Sample.generator Sample.blank_info start
  = (Ok false, start).
Proof. reflexivity. Qed.

(** ** Text generation *)




(** ** Embeddings *)

Lemma embedding_success_status (r : result Response.t) :
  embedding_success r = true -> status_of r = Some 200%Z.
Proof.
  destruct r as [response|e]; simpl; [|discriminate].
  destruct (Response.status_code response =? 200)%Z eqn:E; [|discriminate].
  apply Z.eqb_eq in E. now rewrite E.
Qed.

(** C2, as the code has it: an EMBED dispatch sends one POST to the
    descriptor's URL; its outcome is true exactly when the status of the
    answer is 200 and the body is decoded and read for the log without an
    exception, so only if the status is 200; and a 200 answer whose body is
    a JSON object gives true when [data] is absent, when [data] is an empty
    array, and when [data] is an array whose first entry holds an
    [embedding] array. *)
Theorem embedding_dispatch_outcome (env : Env) (self : TrafficGenerator)
    (endpoint : EndpointInfo) (w : World) :
  Spec.task_is endpoint "EMBED" = true ->
  let r := embedding_request env self endpoint w in
  let reply := http_post env (sent w) r in
  exists b : bool,
    generate_traffic_for_endpoint env self endpoint w = (Ok b, after w [r]) /\
    Shape.post_url r = Some (url endpoint) /\
    b = embedding_success reply /\
    (b = true -> status_of reply = Some 200%Z) /\
    (forall response items,
       reply = Ok response ->
       Response.status_code response = 200%Z ->
       Response.json response = Ok (PyDict items) ->
       Py.dict_get "data" items = None \/
       Py.dict_get "data" items = Some (PyList []) \/
       (exists first rest vector,
          Py.dict_get "data" items = Some (PyList (PyDict first :: rest)) /\
          Py.dict_get "embedding" first = Some (PyList vector)) ->
       b = true).
Proof.
  intros H r reply. subst r reply.
  rewrite embedding_dispatch, embedding_traffic_run by assumption.
  eexists. split; [reflexivity|]. split; [reflexivity|]. split; [reflexivity|].
  split; [apply embedding_success_status|].
  intros response items -> Hs Hj Hd. simpl.
  rewrite Hs, Hj. simpl. unfold embedding_log_ok. simpl.
  destruct Hd as [-> | [-> | (first & rest & vector & -> & Hv)]]; try reflexivity.
  simpl. now rewrite Hv.
Qed.

Lemma embedding_dispatch_outcome_witness :
  exists b : bool,
    fst (generate_traffic_for_endpoint
           (Sample.collaborators (Ok []) [] []
              [Sample.response 200
                 (PyDict [("data", PyList [PyDict [("embedding", PyList [PyInt 1])]])])])
           Sample.generator
           (Sample.info "EMBED" "https://h/v1/embeddings" "embed-1" false) start)
    = Ok b /\ b = true.
Proof.
  destruct (embedding_dispatch_outcome
              (Sample.collaborators (Ok []) [] []
                 [Sample.response 200
                    (PyDict [("data", PyList [PyDict [("embedding", PyList [PyInt 1])]])])])
              Sample.generator
              (Sample.info "EMBED" "https://h/v1/embeddings" "embed-1" false) start
              eq_refl) as (b & E & _ & _ & _ & Hb).
  exists b. split; [now rewrite E|].
  eapply Hb; [reflexivity | reflexivity | reflexivity |].
  right. right. do 3 eexists. split; reflexivity.
Defined.

(** C2 as stated fails: the answer is a 200 whose [data] array is empty, and
    the outcome is true where the claim has false. *)
Lemma embedding_empty_data_counterexample :
  let env :=
    Sample.collaborators (Ok []) [] []
      [Sample.response 200 (PyDict [("data", PyList [])])] in
  let endpoint := Sample.info "EMBED" "https://h/v1/embeddings" "embed-1" false in
  let reply := http_post env [] (embedding_request env Sample.generator endpoint start) in
  reply = Sample.response 200 (PyDict [("data", PyList [])]) /\
  fst (generate_traffic_for_endpoint env Sample.generator endpoint start) = Ok true /\
  Shape.embed_outcome_by_data reply = false.
Proof. repeat split. Qed.

(** ** Reranking *)

Lemma rerank_requests_shape (env : Env) (self : TrafficGenerator)
    (endpoint : EndpointInfo) (w : World) :
  exists (q : string) (docs : list pyval),
    rerank_request env self endpoint w =
      HttpPost (url endpoint) (Shape.rerank_primary (model_name endpoint) q docs)
        (request_headers (cdp_token self)) /\
    rerank_alt_request env self endpoint w =
      HttpPost (url endpoint) (Shape.rerank_alternate (model_name endpoint) q docs)
        (request_headers (cdp_token self)).
Proof.
  unfold rerank_request, rerank_alt_request.
  destruct (rerank_sample_shape env w) as (q & docs & ->).
  now exists q, docs.
Qed.

(** C3: in a RANK dispatch whose primary-shape POST is answered with a
    status other than 200, exactly two POSTs are sent to the descriptor's
    URL, the primary shape and then the alternate shape for the same model,
    query and documents; the outcome is true if and only if one of the two
    answers has status 200. *)
Theorem rerank_fallback (env : Env) (self : TrafficGenerator)
    (endpoint : EndpointInfo) (w : World) (status : Z) :
  Spec.task_is endpoint "RANK" = true ->
  let p := rerank_request env self endpoint w in
  let a := rerank_alt_request env self endpoint w in
  status_of (http_post env (sent w) p) = Some status ->
  status <> 200%Z ->
  generate_traffic_for_endpoint env self endpoint w =
    (Ok (returned_200 (http_post env (sent w) p)
         || returned_200 (http_post env (sent w ++ [p]) a)),
     after w [p; a]) /\
  exists (q : string) (docs : list pyval),
    p = HttpPost (url endpoint) (Shape.rerank_primary (model_name endpoint) q docs)
          (request_headers (cdp_token self)) /\
    a = HttpPost (url endpoint) (Shape.rerank_alternate (model_name endpoint) q docs)
          (request_headers (cdp_token self)).
Proof.
  intros H p a Hs Hne. split; [|apply rerank_requests_shape].
  rewrite rerank_dispatch, rerank_traffic_run by assumption. cbv zeta.
  fold p a.
  destruct (http_post env (sent w) p) as [response|e]; [|discriminate].
  simpl in Hs. injection Hs as <-.
  apply Z.eqb_neq in Hne.
  change (returned_200 (Ok response)) with (Response.status_code response =? 200)%Z.
  now rewrite Hne.
Qed.

Lemma rerank_fallback_witness :
  fst (generate_traffic_for_endpoint
         (Sample.collaborators (Ok []) [] []
            [Sample.response 422 PyNone; Sample.response 200 PyNone])
         Sample.generator
         (Sample.info "rank" "https://h/v1/ranking" "rerank-1" false) start)
  = Ok true.
Proof.
  destruct (rerank_fallback
              (Sample.collaborators (Ok []) [] []
                 [Sample.response 422 PyNone; Sample.response 200 PyNone])
              Sample.generator
              (Sample.info "rank" "https://h/v1/ranking" "rerank-1" false) start
              422%Z eq_refl eq_refl ltac:(discriminate)) as [E _].
  now rewrite E.
Defined.

(** C8: in a RANK dispatch whose primary-shape POST raises, that POST is the
    only request sent and the outcome is false; a second POST is sent only
    after an answer with a status other than 200. *)
Theorem rerank_no_retry_on_exception (env : Env) (self : TrafficGenerator)
    (endpoint : EndpointInfo) (w : World) :
  Spec.task_is endpoint "RANK" = true ->
  let p := rerank_request env self endpoint w in
  let run := generate_traffic_for_endpoint env self endpoint w in
  (forall e, http_post env (sent w) p = Raise e -> run = (Ok false, after w [p])) /\
  (sent (snd run) <> sent w ++ [p] ->
   exists status, status_of (http_post env (sent w) p) = Some status /\ status <> 200%Z).
Proof.
  intros H p run. subst run.
  rewrite rerank_dispatch, rerank_traffic_run by assumption. cbv zeta. fold p.
  destruct (http_post env (sent w) p) as [response|e].
  - split; [discriminate|].
    destruct (Response.status_code response =? 200)%Z eqn:E.
    + intro Hneq. now contradiction Hneq.
    + intros _. exists (Response.status_code response).
      split; [reflexivity | now apply Z.eqb_neq].
  - split; [reflexivity|]. intro Hneq. now contradiction Hneq.
Qed.

Lemma rerank_no_retry_on_exception_witness :
  generate_traffic_for_endpoint
    Sample.silent Sample.generator
    (Sample.info "RANK" "https://h/v1/ranking" "rerank-1" false) start
  = (Ok false,
     after start [rerank_request Sample.silent Sample.generator
       (Sample.info "RANK" "https://h/v1/ranking" "rerank-1" false) start]).
Proof.
  apply (proj1 (rerank_no_retry_on_exception
           Sample.silent Sample.generator
           (Sample.info "RANK" "https://h/v1/ranking" "rerank-1" false) start
           eq_refl) (TransportError "timed out")).
  reflexivity.
Defined.

(** ** Substrings up to case *)
Section WordFacts.

Import PyStr SpecStr.

Lemma starts_with_spec (p l : list ascii) :
  starts_with p l = true <-> exists post, l = p ++ post.
Proof.
  revert l. induction p as [|a p IH]; intro l; simpl.
  - split; [now exists l | reflexivity].
  - destruct l as [|b l].
    + split; [discriminate | now intros [post E]].
    + rewrite andb_true_iff, Ascii.eqb_eq, IH. split.
      * intros [-> [post ->]]. now exists post.
      * intros [post E]. injection E as -> ->. eauto.
Qed.

Lemma occurs_in_spec (p l : list ascii) :
  occurs_in p l = true <-> exists pre post, l = pre ++ p ++ post.
Proof.
  induction l as [|b l IH].
  - simpl. rewrite orb_false_r, starts_with_spec. split.
    + intros [post E]. now exists [], post.
    + intros (pre & post & E). symmetry in E.
      apply app_eq_nil in E as [-> E]. now exists post.
  - simpl. rewrite orb_true_iff, starts_with_spec, IH. split.
    + intros [[post E] | (pre & post & E)].
      * now exists [], post.
      * exists (b :: pre), post. now rewrite E.
    + intros ([|x pre] & post & E).
      * left. now exists post.
      * right. injection E as -> ->. eauto.
Qed.

Lemma lower_chars (s : string) : chars (lower s) = map lower_char (chars s).
Proof. apply chars_of_chars. Qed.

(** [w in s.lower()], for a word [w] already in lower case, says that [s]
    has a substring that is [w] in some letter case. *)
Lemma contains_lower_nocase (w s : string) :
  lower w = w ->
  contains w (lower s) = true <-> has_word_nocase w s.
Proof.
  intro Hw. apply (f_equal chars) in Hw. rewrite lower_chars in Hw.
  unfold contains, has_word_nocase.
  rewrite lower_chars, occurs_in_spec. split.
  - intros (pre & post & E).
    apply map_eq_app in E as (pre' & rest & Es & _ & E).
    apply map_eq_app in E as (mid & post' & -> & Em & _).
    exists pre', mid, post'. split; [assumption|].
    apply (same_letters_map _ same_letter_lower). now rewrite Hw.
  - intros (pre & mid & post & E & Hm).
    apply (same_letters_map _ same_letter_lower) in Hm.
    exists (map lower_char pre), (map lower_char post).
    now rewrite E, !map_app, Hm, Hw.
Qed.

End WordFacts.

(** ** The shape of the requests built *)

Lemma chat_prompt_single_user (v : pyval) :
  In v CHAT_PROMPTS -> Shape.single_user_message v.
Proof.
  unfold CHAT_PROMPTS. simpl. intro H.
  repeat (destruct H as [<- | H];
          [eexists; split; [reflexivity | eexists; split; reflexivity]|]).
  contradiction.
Qed.

(** C4: the request a text-generation build sends has, when
    [has_chat_template] is true, a [messages] field with exactly one entry,
    of role user, and no [prompt] field; when it is false, a [prompt] string
    and no [messages] field. *)
Theorem text_request_fields (env : Env) (self : TrafficGenerator)
    (d : Spec.Descriptor) (w : World) :
  exists r : request,
    sent (snd (_generate_text_traffic env self (Spec.info_of d) w)) = sent w ++ [r] /\
    let kw := Shape.kwargs_of r in
    if Serving.has_chat_template d then
      (exists v, Py.dict_get "messages" kw = Some v /\ Shape.single_user_message v) /\
      Py.dict_get "prompt" kw = None
    else
      (exists p, Py.dict_get "prompt" kw = Some (PyStr p)) /\
      Py.dict_get "messages" kw = None.
Proof.
  rewrite text_traffic_run. cbv zeta. simpl is_string. cbv iota.
  eexists. split; [reflexivity|].
  unfold text_request. simpl Py.truthy.
  destruct (Serving.has_chat_template d); simpl.
  - split; [|reflexivity]. eexists. split; [reflexivity|].
    apply chat_prompt_single_user, chosen_in. discriminate.
  - split; [|reflexivity]. eexists. reflexivity.
Qed.

Lemma image_part_is_image : Shape.is_image_part image_part.
Proof. unfold Shape.is_image_part, image_part. do 2 eexists. repeat split. Qed.

Lemma is_parse_model_nocase (d : Spec.Descriptor) :
  is_parse_model (Spec.info_of d) = true <->
  SpecStr.has_word_nocase "parse" (Serving.model_name d).
Proof. unfold is_parse_model. simpl. now apply contains_lower_nocase. Qed.

(** C5: a vision-language or object-detection dispatch sends one request
    whose [messages] is a single user message; when the model name has
    "parse" in it in any letter case, the content of that message is one
    image part and nothing else; otherwise it is one image part followed by
    one text part whose text is one of the three [VLM_PROMPTS]. *)
Theorem vlm_message_content (env : Env) (self : TrafficGenerator)
    (d : Spec.Descriptor) (w : World) :
  let endpoint := Spec.info_of d in
  Spec.task_is endpoint "IMAGE_TEXT_TO_TEXT"
  || Spec.task_is endpoint "OBJECT_DETECTION" = true ->
  exists (r : request) (messages content : pyval),
    sent (snd (generate_traffic_for_endpoint env self endpoint w)) = sent w ++ [r] /\
    Py.dict_get "messages" (Shape.kwargs_of r) = Some messages /\
    Shape.content_of_single_message messages = Some content /\
    (SpecStr.has_word_nocase "parse" (Serving.model_name d) ->
     exists image, content = PyList [image] /\ Shape.is_image_part image) /\
    (~ SpecStr.has_word_nocase "parse" (Serving.model_name d) ->
     exists image text_part,
       content = PyList [image; text_part] /\
       Shape.is_image_part image /\
       Shape.is_text_part VLM_PROMPTS text_part) /\
    List.length VLM_PROMPTS = 3.
Proof.
  intros endpoint H. rewrite vlm_dispatch, vlm_traffic_run by assumption. cbv zeta.
  simpl is_string. simpl andb. cbv iota.
  exists (vlm_request env self endpoint w). do 2 eexists.
  split; [reflexivity|]. split; [reflexivity|]. split; [reflexivity|].
  unfold vlm_content. rewrite <- is_parse_model_nocase. fold endpoint.
  destruct (is_parse_model endpoint).
  - split; [|split; [now intros []|reflexivity]].
    intros _. eexists. split; [reflexivity | apply image_part_is_image].
  - split; [discriminate|]. split; [|reflexivity].
    intros _. do 2 eexists. split; [reflexivity|].
    split; [apply image_part_is_image|].
    do 2 eexists. repeat split. apply chosen_in. discriminate.
Qed.

Lemma vlm_message_content_witness :
  exists (r : request) (messages content image : pyval),
    sent (snd (generate_traffic_for_endpoint
                 Sample.silent Sample.generator
                 (Sample.info "image_text_to_text" "https://h/v1/chat/completions"
                    "nemoretriever-Parse" false) start)) = [r] /\
    Py.dict_get "messages" (Shape.kwargs_of r) = Some messages /\
    Shape.content_of_single_message messages = Some content /\
    content = PyList [image].
Proof.
  destruct (vlm_message_content
              Sample.silent Sample.generator
              (Sample.descriptor "image_text_to_text" "https://h/v1/chat/completions"
                 "nemoretriever-Parse" false) start eq_refl)
    as (r & messages & content & Hs & Hm & Hc & Hp & _).
  destruct Hp as (image & Hi & _).
  { exists (PyStr.chars "nemoretriever-"), (PyStr.chars "Parse"), [].
    split; reflexivity. }
  exists r, messages, content, image. auto.
Defined.

(** ** Where requests go *)

Lemma base_url_segments (d : Spec.Descriptor) :
  let n := SpecStr.count_char "/" (Serving.url d) in
  let base := base_url (Spec.info_of d) in
  (2 <= n -> base = SpecStr.drop_last_segments 2 "/" (Serving.url d)) /\
  (n = 1 -> base = SpecStr.drop_last_segments 1 "/" (Serving.url d)) /\
  (n = 0 -> base = Serving.url d).
Proof.
  unfold base_url. simpl. repeat split; intro H.
  - destruct (rsplit_head_2 "/" _ H) as (mid & last & ->). reflexivity.
  - destruct (rsplit_head_1 "/" _ H) as (last & ->). reflexivity.
  - now rewrite (rsplit_head_0 "/" _ H).
Qed.

(** C9, as the code has it: a text-generation or vision-language dispatch
    hands the client a base URL that is the descriptor's URL less its last
    two '/'-separated segments when the URL has two '/' or more, less its
    last segment when it has one '/', and the URL itself when it has none;
    every POST of an EMBED or RANK dispatch goes to the descriptor's URL
    unchanged. *)
Theorem request_targets (env : Env) (self : TrafficGenerator)
    (d : Spec.Descriptor) (w : World) :
  let endpoint := Spec.info_of d in
  let w' := snd (generate_traffic_for_endpoint env self endpoint w) in
  let n := SpecStr.count_char "/" (Serving.url d) in
  (Spec.task_is endpoint "TEXT_GENERATION"
   || Spec.task_is endpoint "TEXT_TO_TEXT_GENERATION"
   || Spec.task_is endpoint "IMAGE_TEXT_TO_TEXT"
   || Spec.task_is endpoint "OBJECT_DETECTION" = true ->
   exists (r : request) (base : string),
     sent w' = sent w ++ [r] /\
     Shape.client_base_url r = Some base /\
     (2 <= n -> base = SpecStr.drop_last_segments 2 "/" (Serving.url d)) /\
     (n = 1 -> base = SpecStr.drop_last_segments 1 "/" (Serving.url d)) /\
     (n = 0 -> base = Serving.url d)) /\
  (Spec.task_is endpoint "EMBED" || Spec.task_is endpoint "RANK" = true ->
   exists rs : list request,
     sent w' = sent w ++ rs /\
     rs <> [] /\
     Forall (fun r => Shape.post_url r = Some (PyStr (Serving.url d))) rs).
Proof.
  intros endpoint w' n. subst w'. split; intro H.
  - rewrite <- orb_assoc in H. apply orb_true_iff in H as [H | H].
    + rewrite text_dispatch, text_traffic_run by assumption. cbv zeta.
      simpl is_string. cbv iota. unfold text_request.
      destruct (Py.truthy (has_chat_template endpoint));
        (do 2 eexists; split; [reflexivity|]; split; [reflexivity|];
         apply base_url_segments).
    + rewrite vlm_dispatch, vlm_traffic_run by assumption. cbv zeta.
      simpl is_string. simpl andb. cbv iota.
      do 2 eexists. split; [reflexivity|]. split; [reflexivity|].
      apply base_url_segments.
  - apply orb_true_iff in H as [H | H].
    + rewrite embedding_dispatch, embedding_traffic_run by assumption.
      eexists. split; [reflexivity|]. split; [discriminate|].
      repeat constructor.
    + rewrite rerank_dispatch, rerank_traffic_run by assumption. cbv zeta.
      destruct (http_post env (sent w) _) as [response|e].
      * destruct (Response.status_code response =? 200)%Z;
          (eexists; split; [reflexivity|]; split; [discriminate|]; repeat constructor).
      * eexists. split; [reflexivity|]. split; [discriminate|]. repeat constructor.
Qed.

Lemma request_targets_witness :
  exists (r : request),
    sent (snd (generate_traffic_for_endpoint
                 Sample.silent Sample.generator
                 (Sample.info "TEXT_GENERATION"
                    "https://h.example.com/ns/ep/v1/chat/completions" "llama" true)
                 start)) = [r] /\
    Shape.client_base_url r = Some "https://h.example.com/ns/ep/v1".
Proof.
  destruct (proj1 (request_targets
              Sample.silent Sample.generator
              (Sample.descriptor "TEXT_GENERATION"
                 "https://h.example.com/ns/ep/v1/chat/completions" "llama" true)
              start) eq_refl)
    as (r & base & Hs & Hb & H2 & _).
  exists r. split; [exact Hs|]. rewrite Hb. f_equal. apply H2.
  vm_compute. lia.
Defined.

(** C9 as stated fails on a URL with a single '/': the client is handed
    what precedes the '/', one segment short of the URL, where the claim
    removes two. *)
Lemma base_url_one_slash_counterexample :
  let env := Sample.silent in
  let d := Sample.descriptor "TEXT_GENERATION" "host/v1" "llama" true in
  let w' := snd (generate_traffic_for_endpoint env Sample.generator (Spec.info_of d) start) in
  map Shape.client_base_url (sent w') = [Some "host"] /\
  SpecStr.drop_last_segments 2 "/" (Serving.url d) = "" /\
  map Shape.client_base_url (sent w')
    <> [Some (SpecStr.drop_last_segments 2 "/" (Serving.url d))].
Proof. repeat split. discriminate. Qed.

(** ** Normalization of the domain *)
Section TrimFacts.

Import PyStr PyTrim.

Variable p : ascii -> bool.

Lemma lstrip_while_suffix (l : list ascii) :
  exists pre, l = pre ++ lstrip_while p l.
Proof.
  induction l as [|x t IH]; simpl.
  - now exists [].
  - destruct (p x); [|now exists []].
    destruct IH as [pre E]. exists (x :: pre). simpl. now rewrite <- E.
Qed.

Lemma lstrip_while_head (l r : list ascii) (x : ascii) :
  lstrip_while p l = x :: r -> p x = false.
Proof.
  induction l as [|y t IH]; simpl; [discriminate|].
  destruct (p y) eqn:E; [assumption|].
  intro H. injection H as <- _. assumption.
Qed.

Lemma lstrip_while_stop (l1 l2 : list ascii) (x : ascii) :
  p x = false -> lstrip_while p (l1 ++ x :: l2) = lstrip_while p l1 ++ x :: l2.
Proof.
  intro Hx. induction l1 as [|y t IH]; simpl.
  - now rewrite Hx.
  - destruct (p y); [assumption | reflexivity].
Qed.

Lemma rstrip_while_prefix (l : list ascii) :
  exists suf, l = rstrip_while p l ++ suf.
Proof.
  unfold rstrip_while. destruct (lstrip_while_suffix (rev l)) as [pre E].
  exists (rev pre). rewrite <- rev_app_distr, <- E. now rewrite rev_involutive.
Qed.

Lemma rstrip_while_last (l a : list ascii) (x : ascii) :
  rstrip_while p l = a ++ [x] -> p x = false.
Proof.
  unfold rstrip_while. intro H.
  apply (f_equal (@rev ascii)) in H.
  rewrite rev_involutive, rev_app_distr in H. simpl in H.
  now apply lstrip_while_head in H.
Qed.

Lemma rstrip_while_stop (a l : list ascii) (x : ascii) :
  p x = false -> rstrip_while p (a ++ x :: l) = a ++ x :: rstrip_while p l.
Proof.
  intro Hx. unfold rstrip_while.
  rewrite rev_app_distr. simpl rev. rewrite <- app_assoc. simpl.
  rewrite lstrip_while_stop by assumption.
  rewrite rev_app_distr. simpl. rewrite rev_involutive, <- app_assoc.
  reflexivity.
Qed.

Lemma rstrip_while_keep (a : list ascii) (x : ascii) :
  p x = false -> rstrip_while p (a ++ [x]) = a ++ [x].
Proof. intro Hx. now rewrite rstrip_while_stop. Qed.

End TrimFacts.



(** What [normalize_domain] makes of a string whose characters are [l],
    once stripped to [r]. *)
Lemma normalize_domain_stripped (s : string) :
  let r := PyTrim.rstrip_while PyTrim.is_space
             (PyTrim.lstrip_while PyTrim.is_space (PyStr.chars s)) in
  PyStr.chars (normalize_domain s) =
  PyTrim.rstrip_while (Ascii.eqb "/")
    (if PyStr.starts_with (PyStr.chars "https://") r then skipn 8 r
     else if PyStr.starts_with (PyStr.chars "http://") r then skipn 7 r
     else r).
Proof.
  intro r. unfold normalize_domain, PyTrim.strip, PyTrim.startswith,
    PyTrim.slice_from, PyTrim.rstrip_char.
  rewrite !chars_of_chars. fold r.
  destruct (PyStr.starts_with (PyStr.chars "https://") r);
    [now rewrite !chars_of_chars|].
  destruct (PyStr.starts_with (PyStr.chars "http://") r);
    now rewrite !chars_of_chars.
Qed.

(** X1: the domain a generator is built with never ends with '/',
    whatever string was given. *)
Theorem init_domain_no_trailing_slash (token given : string) (verify : bool)
    (every cap : Z) (a : list ascii) :
  PyStr.chars (domain (__init__ token given verify every cap)) <> a ++ ["/"%char].
Proof.
  simpl domain. rewrite normalize_domain_stripped. cbv zeta. intro H.
  apply rstrip_while_last in H. now rewrite Ascii.eqb_refl in H.
Qed.

Lemma init_domain_no_trailing_slash_witness :
  PyStr.chars (domain (__init__ "secret" "https://serving.example.com//" true 60 50))
  <> PyStr.chars "serving.example.com" ++ ["/"%char].
Proof.
  apply (init_domain_no_trailing_slash "secret" "https://serving.example.com//"
           true 60 50 (PyStr.chars "serving.example.com")).
Defined.

(** X2: the domain a generator is built with is a piece of the string
    given: normalization only removes characters, at the two ends. *)
Theorem init_domain_within_given (token given : string) (verify : bool)
    (every cap : Z) :
  exists pre post : list ascii,
    PyStr.chars given =
    pre ++ PyStr.chars (domain (__init__ token given verify every cap)) ++ post.
Proof.
  simpl domain. rewrite normalize_domain_stripped. cbv zeta.
  destruct (lstrip_while_suffix PyTrim.is_space (PyStr.chars given)) as [pre E].
  set (l := PyTrim.lstrip_while PyTrim.is_space (PyStr.chars given)) in *.
  destruct (rstrip_while_prefix PyTrim.is_space l) as [suf Es].
  set (r := PyTrim.rstrip_while PyTrim.is_space l) in *.
  assert (Cut : forall k, exists pre' post',
            PyStr.chars given =
            pre' ++ PyTrim.rstrip_while (Ascii.eqb "/") (skipn k r) ++ post').
  { intro k.
    destruct (rstrip_while_prefix (Ascii.eqb "/") (skipn k r)) as [suf' E'].
    exists (pre ++ firstn k r), (suf' ++ suf).
    rewrite E, Es. rewrite <- (firstn_skipn k r) at 1.
    rewrite E' at 1. now rewrite <- !app_assoc. }
  destruct (PyStr.starts_with _ r); [apply Cut|].
  destruct (PyStr.starts_with _ r); [apply Cut|].
  apply (Cut 0).
Qed.





(** ** What a dispatch sends *)

Lemma rerank_requests_addressed (env : Env) (self : TrafficGenerator)
    (endpoint : EndpointInfo) (w : World) :
  well_addressed self endpoint (rerank_request env self endpoint w) /\
  well_addressed self endpoint (rerank_alt_request env self endpoint w).
Proof.
  unfold well_addressed, rerank_request, rerank_alt_request. simpl. tauto.
Qed.

Lemma dispatch_sends (env : Env) (self : TrafficGenerator)
    (endpoint : EndpointInfo) (w : World) :
  exists (b : bool) (w' : World) (rs : list request),
    generate_traffic_for_endpoint env self endpoint w = (Ok b, w') /\
    sent w' = sent w ++ rs /\
    List.length rs <= 2 /\
    (2 <= List.length rs -> Spec.task_is endpoint "RANK" = true) /\
    draws w <= draws w' <= S (draws w) /\
    Forall (well_addressed self endpoint) rs.
Proof.
  assert (Quiet : forall b0 : bool,
            exists (b : bool) (w' : World) (rs : list request),
              (Ok b0, w) = (Ok b, w') /\
              sent w' = sent w ++ rs /\
              List.length rs <= 2 /\
              (2 <= List.length rs -> Spec.task_is endpoint "RANK" = true) /\
              draws w <= draws w' <= S (draws w) /\
              Forall (well_addressed self endpoint) rs).
  { intro b0. exists b0, w, []. rewrite app_nil_r. simpl.
    repeat split; auto; lia. }
  assert (One : forall (b0 : bool) (r : request) (d : nat),
            draws w <= d <= S (draws w) ->
            well_addressed self endpoint r ->
            exists (b : bool) (w' : World) (rs : list request),
              (Ok b0, {| sent := sent w ++ [r]; draws := d |}) = (Ok b, w') /\
              sent w' = sent w ++ rs /\
              List.length rs <= 2 /\
              (2 <= List.length rs -> Spec.task_is endpoint "RANK" = true) /\
              draws w <= draws w' <= S (draws w) /\
              Forall (well_addressed self endpoint) rs).
  { intros b0 r d Hd Hr. exists b0, {| sent := sent w ++ [r]; draws := d |}, [r].
    simpl. repeat split; auto; lia. }
  rewrite dispatch_by_task.
  destruct (_ || _).
  { rewrite text_traffic_run. cbv zeta.
    destruct (is_string (url endpoint)); [|apply Quiet].
    apply One; [lia|]. unfold text_request.
    destruct (Py.truthy _); repeat split. }
  destruct (Spec.task_is endpoint "EMBED").
  { rewrite embedding_traffic_run. apply One; [lia|].
    unfold well_addressed, embedding_request. simpl. tauto. }
  destruct (Spec.task_is endpoint "RANK") eqn:Hrank.
  { rewrite rerank_traffic_run. cbv zeta.
    destruct (rerank_requests_addressed env self endpoint w) as [Hp Ha].
    destruct (http_post env (sent w) _) as [response|e].
    - destruct (Response.status_code response =? 200)%Z; [apply One; [lia | exact Hp]|].
      do 3 eexists. split; [reflexivity|]. split; [reflexivity|].
      simpl. repeat split; auto; lia.
    - apply One; [lia | exact Hp]. }
  destruct (_ || _).
  { rewrite vlm_traffic_run. cbv zeta.
    destruct (_ && _); [|apply Quiet].
    apply One; [destruct (is_parse_model endpoint); lia|].
    repeat split. }
  destruct (existsb _ _); apply Quiet.
Qed.

(** X5: a dispatch only adds to the requests sent, at most two of them and
    two only for a RANK task; it never queries the directory service and
    draws at most one random number. *)
Theorem dispatch_request_bound (env : Env) (self : TrafficGenerator)
    (endpoint : EndpointInfo) (w : World) :
  let w' := snd (generate_traffic_for_endpoint env self endpoint w) in
  exists rs : list request,
    sent w' = sent w ++ rs /\
    (List.length rs <= 1 \/
     List.length rs = 2 /\ Spec.task_is endpoint "RANK" = true) /\
    discoveries rs = 0 /\
    draws w <= draws w' <= S (draws w).
Proof.
  destruct (dispatch_sends env self endpoint w)
    as (b & w1 & rs & -> & Hs & Hlen & Hrank & Hd & Hall).
  exists rs. simpl. repeat split; try assumption; try lia.
  - destruct (Nat.le_gt_cases (List.length rs) 1) as [H | H]; [now left|].
    right. split; [lia | apply Hrank; lia].
  - unfold discoveries. clear - Hall.
    induction Hall as [|r rs [Hr _] _ IH]; [reflexivity|].
    simpl. now rewrite Hr.
Qed.



(** X7: on a text-generation or vision-language task, a descriptor whose
    URL is no string is dispatched to false with nothing sent and no random
    number drawn: [rsplit] raises before any request is built. *)
Theorem dispatch_unusable_url (env : Env) (self : TrafficGenerator)
    (endpoint : EndpointInfo) (w : World) :
  Spec.task_is endpoint "TEXT_GENERATION"
  || Spec.task_is endpoint "TEXT_TO_TEXT_GENERATION"
  || Spec.task_is endpoint "IMAGE_TEXT_TO_TEXT"
  || Spec.task_is endpoint "OBJECT_DETECTION" = true ->
  is_string (url endpoint) = false ->
  generate_traffic_for_endpoint env self endpoint w = (Ok false, w).
Proof.
  intros H Hu. rewrite <- orb_assoc in H. apply orb_true_iff in H as [H | H].
  - now rewrite text_dispatch, text_traffic_run, Hu.
  - now rewrite vlm_dispatch, vlm_traffic_run, Hu.
Qed.

Lemma dispatch_unusable_url_witness :
  generate_traffic_for_endpoint Sample.silent Sample.generator
    {| name := PyStr "ep"; namespace := PyStr "ns"; url := PyNone;
       state := PyStr "running"; api_standard := PyNone;
       task := PyStr "text_generation"; model_name := PyStr "llama";
       has_chat_template := PyBool true |} start
  = (Ok false, start).
Proof.
  apply (dispatch_unusable_url Sample.silent Sample.generator
           {| name := PyStr "ep"; namespace := PyStr "ns"; url := PyNone;
              state := PyStr "running"; api_standard := PyNone;
              task := PyStr "text_generation"; model_name := PyStr "llama";
              has_chat_template := PyBool true |} start);
    reflexivity.
Defined.

(** X8: a status of 200 is not enough for an embedding to succeed: the
    outcome is false when the body does not decode, when it decodes to
    null, a boolean or a number, and when its [data] array begins with an
    object that has no [embedding]. *)
Theorem embedding_unreadable_body (env : Env) (self : TrafficGenerator)
    (endpoint : EndpointInfo) (w : World) (response : Response.t) :
  Spec.task_is endpoint "EMBED" = true ->
  let r := embedding_request env self endpoint w in
  http_post env (sent w) r = Ok response ->
  Response.status_code response = 200%Z ->
  (exists e, Response.json response = Raise e) \/
  (exists body, Response.json response = Ok body /\
     match body with
     | PyNone | PyBool _ | PyInt _ | PyFloat _ _ => True
     | _ => False
     end) \/
  (exists items first rest,
     Response.json response = Ok (PyDict items) /\
     Py.dict_get "data" items = Some (PyList (PyDict first :: rest)) /\
     Py.dict_get "embedding" first = None) ->
  generate_traffic_for_endpoint env self endpoint w = (Ok false, after w [r]).
Proof.
  intros H r Hreply Hs Hbody. subst r.
  rewrite embedding_dispatch, embedding_traffic_run by assumption.
  rewrite Hreply. simpl. rewrite Hs. simpl.
  destruct Hbody as [[e ->] | [(body & -> & Hb) | (items & first & rest & -> & Hd & He)]].
  - reflexivity.
  - destruct body; try contradiction; reflexivity.
  - unfold embedding_log_ok. simpl. rewrite Hd. simpl. now rewrite He.
Qed.

Lemma embedding_unreadable_body_witness :
  fst (generate_traffic_for_endpoint
         (Sample.collaborators (Ok []) [] []
            [Sample.response 200 (PyDict [("data", PyList [PyDict [("index", PyInt 0)]])])])
         Sample.generator
         (Sample.info "EMBED" "https://h/v1/embeddings" "embed-1" false) start)
  = Ok false.
Proof.
  rewrite (embedding_unreadable_body
             (Sample.collaborators (Ok []) [] []
                [Sample.response 200
                   (PyDict [("data", PyList [PyDict [("index", PyInt 0)]])])])
             Sample.generator
             (Sample.info "EMBED" "https://h/v1/embeddings" "embed-1" false) start
             {| Response.status_code := 200;
                Response.json :=
                  Ok (PyDict [("data", PyList [PyDict [("index", PyInt 0)]])]);
                Response.text := "" |}
             eq_refl eq_refl eq_refl).
  - reflexivity.
  - right. right. do 3 eexists. repeat split.
Defined.

(** X9: a RANK dispatch always sends a POST, and its outcome is whether the
    last POST it sent was answered with status 200. *)
Theorem rerank_outcome_last_post (env : Env) (self : TrafficGenerator)
    (endpoint : EndpointInfo) (w : World) :
  Spec.task_is endpoint "RANK" = true ->
  exists (b : bool) (w' : World) (hist : list request) (r : request),
    generate_traffic_for_endpoint env self endpoint w = (Ok b, w') /\
    sent w' = hist ++ [r] /\
    List.length (sent w) <= List.length hist /\
    b = returned_200 (http_post env hist r).
Proof.
  intro H. rewrite rerank_dispatch, rerank_traffic_run by assumption. cbv zeta.
  set (p := rerank_request env self endpoint w).
  set (a := rerank_alt_request env self endpoint w).
  destruct (http_post env (sent w) p) as [response|e] eqn:E.
  - destruct (Response.status_code response =? 200)%Z eqn:Es.
    + exists true, (after w [p]), (sent w), p.
      repeat split; [lia|]. unfold returned_200. now rewrite E.
    + exists (returned_200 (http_post env (sent w ++ [p]) a)),
        (after w [p; a]), (sent w ++ [p]), a.
      repeat split.
      * simpl. now rewrite <- app_assoc.
      * rewrite length_app. lia.
  - exists false, (after w [p]), (sent w), p.
    repeat split; [lia|]. unfold returned_200. now rewrite E.
Qed.

Lemma rerank_outcome_last_post_witness :
  fst (generate_traffic_for_endpoint
         (Sample.collaborators (Ok []) [] [] [Sample.response 200 PyNone])
         Sample.generator
         (Sample.info "Rank" "https://h/v1/ranking" "rerank-1" false) start)
  = Ok true.
Proof.
  destruct (rerank_outcome_last_post
              (Sample.collaborators (Ok []) [] [] [Sample.response 200 PyNone])
              Sample.generator
              (Sample.info "Rank" "https://h/v1/ranking" "rerank-1" false) start
              eq_refl) as (b & w' & hist & r & E & _).
  rewrite E. simpl. f_equal. vm_compute in E. now injection E.
Defined.

(** ** Cycles *)
Section CycleFacts.

Variable env : Env.
Variable self : TrafficGenerator.








End CycleFacts.




(** X13: the loop over the descriptors composes: over a list made of two
    parts it is the loop over the first part followed by the loop over the
    second, which starts from the count of successes the first reached. *)
Theorem dispatch_each_app (env : Env) (self : TrafficGenerator)
    (first second : list EndpointInfo) (count : nat) (t : Timeline) :
  dispatch_each env self (first ++ second) count t =
  Cycle.bind (dispatch_each env self first count)
    (fun reached => dispatch_each env self second reached) t.
Proof.
  revert count t. induction first as [|endpoint rest IH]; intros count t.
  - reflexivity.
  - simpl app. simpl dispatch_each. unfold Cycle.bind in IH |- *.
    destruct (Cycle.call (generate_traffic_for_endpoint env self endpoint) t)
      as [[b|e] t1]; [|reflexivity].
    destruct (Cycle.time_sleep 2 t1) as [[[]|e] t2]; [|reflexivity].
    apply IH.
Qed.







(** Three descriptors dispatched to true, false and true are summed up as
    2 of 3, with a sleep of two seconds after each. *)
Example run_once_two_of_three :
  run_once
    (Sample.collaborators
       (Ok [Sample.record "a" "running" "INFERENCE";
            Sample.record "b" "running" "FOO";
            Sample.record "c" "running" "SPEECH_TO_TEXT"]) [] [] [])
    Sample.generator "serving-default" {| world := start; slept := [] |}
  = (Returned (Some (2, 3)),
     {| world := {| sent := [ListEndpoints "serving-default"]; draws := 0 |};
        slept := [2%Z; 2%Z; 2%Z] |}).
Proof. reflexivity. Qed.

(** ** The entry point *)
Section MainFacts.

Import PyStr PyTrim.

Lemma lstrip_while_all (p : ascii -> bool) (l : list ascii) :
  Forall (fun x => p x = true) l -> lstrip_while p l = [].
Proof.
  induction 1 as [|x l Hx _ IH]; [reflexivity|]. simpl. now rewrite Hx.
Qed.

Lemma rstrip_while_all (p : ascii -> bool) (l : list ascii) :
  Forall (fun x => p x = true) l -> rstrip_while p l = [].
Proof.
  intro H. unfold rstrip_while. rewrite lstrip_while_all; [reflexivity|].
  now apply Forall_rev.
Qed.

Lemma rstrip_while_none (p : ascii -> bool) (l : list ascii) :
  Forall (fun x => p x = false) l -> rstrip_while p l = l.
Proof.
  intro H. destruct l as [|y t] using rev_ind; [reflexivity|].
  apply rstrip_while_keep. apply Forall_app in H as [_ H]. now inversion H.
Qed.

Lemma normalize_domain_blank (given : string) :
  all_char "/" (chars given) \/ Forall (fun c => is_space c = true) (chars given) ->
  normalize_domain given = "".
Proof.
  intro H. rewrite <- (of_chars_chars (normalize_domain given)).
  rewrite normalize_domain_stripped. cbv zeta.
  destruct H as [H | H].
  - assert (Hn : Forall (fun x => is_space x = false) (chars given)).
    { revert H. apply Forall_impl. now intros c <-. }
    assert (Hl : lstrip_while is_space (chars given) = chars given).
    { destruct (chars given) as [|x t]; [reflexivity|].
      simpl. inversion Hn as [|? ? Hx _]. now rewrite Hx. }
    rewrite Hl, (rstrip_while_none _ _ Hn).
    assert (Hall : Forall (fun x => Ascii.eqb "/" x = true) (chars given)).
    { revert H. apply Forall_impl. intros c <-. apply Ascii.eqb_refl. }
    destruct (chars given) as [|x t]; [reflexivity|].
    inversion H as [|? ? Hx _]. subst x.
    change (starts_with (chars "https://") ("/"%char :: t)) with false.
    change (starts_with (chars "http://") ("/"%char :: t)) with false.
    cbv iota. now rewrite (rstrip_while_all _ _ Hall).
  - now rewrite (lstrip_while_all _ _ H).
Qed.

(** X17: [main] checks the domain before it is normalized: with a token, a
    domain that is not empty but made only of '/', or only of white space,
    passes the check and gives a generator whose domain is empty and whose
    directory address is "https://". *)
Theorem main_blank_domain (args : Args.t) (secret given : string) :
  Args.token args = Some secret -> secret <> "" ->
  Args.domain args = Some given -> given <> "" ->
  all_char "/" (chars given) \/ Forall (fun c => is_space c = true) (chars given) ->
  exists generator : TrafficGenerator,
    main args = Started generator (Args.once args) (Args.namespace args) /\
    cdp_token generator = secret /\
    domain generator = "" /\
    config_host generator = "https://".
Proof.
  intros Ht Hsecret Hd Hgiven Hblank. unfold main. rewrite Ht, Hd.
  destruct secret as [|c secret]; [congruence|].
  destruct given as [|c' given]; [congruence|]. simpl truthy_str. cbv iota.
  simpl negb. cbv iota.
  eexists. split; [reflexivity|]. split; [reflexivity|].
  unfold config_host. simpl domain.
  rewrite (normalize_domain_blank _ Hblank). split; reflexivity.
Qed.

Lemma main_blank_domain_witness :
  exists generator : TrafficGenerator,
    main {| Args.token := Some "secret"; Args.domain := Some "///";
            Args.namespace := "serving-default"; Args.interval := 60;
            Args.max_tokens := 50; Args.no_verify_ssl := false;
            Args.once := true; Args.debug := false |}
    = Started generator true "serving-default" /\
    config_host generator = "https://".
Proof.
  destruct (main_blank_domain
              {| Args.token := Some "secret"; Args.domain := Some "///";
                 Args.namespace := "serving-default"; Args.interval := 60;
                 Args.max_tokens := 50; Args.no_verify_ssl := false;
                 Args.once := true; Args.debug := false |}
              "secret" "///" eq_refl ltac:(discriminate) eq_refl ltac:(discriminate))
    as (generator & E & _ & _ & Hh).
  - left. repeat constructor.
  - exists generator. split; [exact E | exact Hh].
Defined.

End MainFacts.

(** ** More on the requests of a dispatch *)

(** X18: every request a dispatch makes to the chat/completions client asks
    for at most the [max_tokens] the generator was built with. *)
Theorem dispatch_token_cap (env : Env) (self : TrafficGenerator)
    (endpoint : EndpointInfo) (w : World) (r : request) :
  In r (sent (snd (generate_traffic_for_endpoint env self endpoint w))) ->
  ~ In r (sent w) ->
  caps_tokens (max_tokens self) r.
Proof.
  destruct (dispatch_sends env self endpoint w)
    as (b & w1 & rs & -> & Hs & _ & _ & _ & Hall).
  simpl. rewrite Hs. intros Hin Hnew.
  apply in_app_or in Hin as [Hin | Hin]; [contradiction|].
  rewrite Forall_forall in Hall. now destruct (Hall r Hin) as (_ & _ & _ & Hc).
Qed.

Lemma dispatch_token_cap_witness :
  exists r : request,
    sent (snd (generate_traffic_for_endpoint Sample.silent Sample.generator
                 (Sample.info "IMAGE_TEXT_TO_TEXT" "https://h/v1/chat/completions"
                    "vlm-1" false) start)) = [r] /\
    caps_tokens 50 r.
Proof.
  eexists. split; [reflexivity|].
  apply (dispatch_token_cap Sample.silent Sample.generator
           (Sample.info "IMAGE_TEXT_TO_TEXT" "https://h/v1/chat/completions"
              "vlm-1" false) start).
  - left. reflexivity.
  - intros [].
Defined.



(** X20: the body of the POST of an EMBED dispatch has exactly three fields:
    [model], the descriptor's model name; [input], one of the five
    [EMBEDDING_TEXTS]; and [input_type], always "query". *)
Theorem embedding_body (env : Env) (self : TrafficGenerator)
    (endpoint : EndpointInfo) (w : World) :
  Spec.task_is endpoint "EMBED" = true ->
  exists (r : request) (text : string),
    sent (snd (generate_traffic_for_endpoint env self endpoint w)) = sent w ++ [r] /\
    post_body r =
      Some (PyDict [("model", model_name endpoint);
                    ("input", PyStr text);
                    ("input_type", PyStr "query")]) /\
    In text EMBEDDING_TEXTS /\
    List.length EMBEDDING_TEXTS = 5.
Proof.
  intro H. rewrite embedding_dispatch, embedding_traffic_run by assumption.
  do 2 eexists. split; [reflexivity|]. split; [reflexivity|].
  split; [apply chosen_in; discriminate | reflexivity].
Qed.

Lemma embedding_body_witness :
  exists r : request,
    sent (snd (generate_traffic_for_endpoint Sample.silent Sample.generator
                 (Sample.info "embed" "https://h/v1/embeddings" "embed-1" false)
                 start)) = [r] /\
    post_body r =
      Some (PyDict [("model", PyStr "embed-1");
                    ("input", PyStr "The quick brown fox jumps over the lazy dog");
                    ("input_type", PyStr "query")]).
Proof.
  destruct (embedding_body Sample.silent Sample.generator
              (Sample.info "embed" "https://h/v1/embeddings" "embed-1" false)
              start eq_refl) as (r & text & Hs & Hb & _).
  exists r. split; [exact Hs|].
  simpl in Hs. injection Hs as <-. reflexivity.
Defined.
